(** * Facility Normalizer: a shallow embedding of [process_healthsites.py]

    The script reads a table of health-site rows, turns every row it keeps
    into a nested dictionary, tabulates a summary and writes two JSON
    documents.  The model below follows the script statement by statement:
    - a Python object is a term of an inductive type of values, a cell of
      the data frame one of the scalars that [pd.read_csv] produces;
    - a dictionary is an association list in insertion order;
    - an exception is the [Raise] of an error monad, and evaluation order is
      the order of the binds;
    - the builtins [str], [int], [float] and [json.dump] are modelled as
      executable functions, floats as binary64 values;
    - the two output files live in a store of named files.
    Of the console output only the summary block is modelled. *)

From Stdlib Require Import ZArith List String Ascii Bool Lia.
From Stdlib Require Import Floats.SpecFloat.
From Stdlib Require Import Permutation Sorted.
Import ListNotations.
Set Warnings "-register-all".
Local Open Scope string_scope.
Local Open Scope list_scope.
Local Open Scope Z_scope.

(** ** Exceptions *)

Inductive exn :=
| KeyError (k : string)
| ValueError
| OverflowError
| AttributeError
| TypeError.

Inductive result (A : Type) :=
| Ok (a : A)
| Raise (e : exn).
Arguments Ok {A} a.
Arguments Raise {A} e.

Definition bind {A B} (m : result A) (k : A -> result B) : result B :=
  match m with
  | Ok a => k a
  | Raise e => Raise e
  end.

Notation "x <- m ;; k" := (bind m (fun x => k))
  (at level 61, m at next level, right associativity).

Definition raises {A} (m : result A) : Prop := exists e, m = Raise e.

(** ** Python objects

    A cell of the data frame holds what [pd.read_csv] puts there: a [str],
    an [int], a [float] (a blank field is the float NaN) or a [bool].
    The cells are the Python scalars that a row has in a frame with a
    column of strings, as the script's table is; an [int] comes from a
    64-bit column.  A Python [str] is modelled by a Rocq string whose
    characters are the code points below 256, so a string with a code
    point above that has no counterpart here.  Floats are binary64
    values. *)

Definition prec : Z := 53.
Definition emax : Z := 1024.

Inductive cell :=
| CStr (s : string)
| CInt (z : Z)
| CFloat (x : spec_float)
| CBool (b : bool).

Definition NaN : cell := CFloat S754_nan.

Inductive value :=
| VNone
| VBool (b : bool)
| VInt (z : Z)
| VFloat (x : spec_float)
| VStr (s : string)
| VList (l : list value)
| VDict (d : list (string * value)).

Definition pydict := list (string * value).

Definition of_cell (c : cell) : value :=
  match c with
  | CStr s => VStr s
  | CInt z => VInt z
  | CFloat x => VFloat x
  | CBool b => VBool b
  end.

(** [bool(x)]: a float is false only when it is a zero, so NaN is true. *)
Definition float_truthy (x : spec_float) : bool :=
  match x with
  | S754_zero _ => false
  | _ => true
  end.

Definition str_truthy (s : string) : bool :=
  match s with
  | EmptyString => false
  | _ => true
  end.

Definition truthy (v : value) : bool :=
  match v with
  | VNone => false
  | VBool b => b
  | VInt z => negb (z =? 0)
  | VFloat x => float_truthy x
  | VStr s => str_truthy s
  | VList l => match l with [] => false | _ => true end
  | VDict d => match d with [] => false | _ => true end
  end.

Definition cell_truthy (c : cell) : bool := truthy (of_cell c).

(** [pd.isna] and [pd.notna] on a scalar. *)
Definition isna (c : cell) : bool :=
  match c with
  | CFloat S754_nan => true
  | _ => false
  end.

Definition notna (c : cell) : bool := negb (isna c).

(** [c != ''] *)
Definition ne_empty (c : cell) : bool :=
  match c with
  | CStr EmptyString => false
  | _ => true
  end.

(** ** Dictionaries *)

Fixpoint dict_get {V} (k : string) (d : list (string * V)) : option V :=
  match d with
  | [] => None
  | (k', v) :: d' => if String.eqb k k' then Some v else dict_get k d'
  end.

(** [d[k] = v]: an existing key keeps its position, a new one goes last. *)
Fixpoint dict_set {K V} (eqb : K -> K -> bool) (k : K) (v : V)
  (d : list (K * V)) : list (K * V) :=
  match d with
  | [] => [(k, v)]
  | (k', v') :: d' =>
      if eqb k' k then (k', v) :: d' else (k', v') :: dict_set eqb k v d'
  end.

Fixpoint dict_find {K V} (eqb : K -> K -> bool) (k : K)
  (d : list (K * V)) : option V :=
  match d with
  | [] => None
  | (k', v) :: d' => if eqb k' k then Some v else dict_find eqb k d'
  end.

(** ** Rows and data frames

    A row is indexed by column label; a label that is not a column raises
    [KeyError]. *)

Definition row := list (string * cell).
Definition dataframe := list row.

Definition row_get (r : row) (col : string) : result cell :=
  match dict_get col r with
  | Some c => Ok c
  | None => Raise (KeyError col)
  end.

(** ** Conversions of the Python runtime

    [str], [int] and [float] are builtins of the interpreter; they are
    modelled here as far as the cells above can reach them. *)

Module Py.

(** Characters that [int] and [float] strip from both ends of a string:
    the ASCII white space (tab to carriage return, and the space) and the
    blanks beyond ASCII (next line, no-break space), which the conversion
    first turns into spaces.  The separators 28 to 31 are not among them. *)
Definition is_space (a : ascii) : bool :=
  let n := N_of_ascii a in
  (((9 <=? n) && (n <=? 13)) || (n =? 32) || (n =? 133) || (n =? 160))%N.

Definition is_digit (a : ascii) : bool :=
  let n := N_of_ascii a in ((48 <=? n) && (n <=? 57))%N.

Definition digit_val (a : ascii) : Z := Z.of_N (N_of_ascii a) - 48.

Fixpoint lstrip (l : list ascii) : list ascii :=
  match l with
  | a :: l' => if is_space a then lstrip l' else l
  | [] => []
  end.

Definition strip (l : list ascii) : list ascii :=
  rev (lstrip (rev (lstrip l))).

(** The rest of a [digitpart ::= digit (["_"] digit)*] once its first digit
    has been read: the digits found and the unread input. *)
Fixpoint digitpart_rest (l : list ascii) : list Z * list ascii :=
  match l with
  | a :: l' =>
      if is_digit a then
        let '(ds, r) := digitpart_rest l' in (digit_val a :: ds, r)
      else if Ascii.eqb a "_" then
        match l' with
        | b :: l'' =>
            if is_digit b then
              let '(ds, r) := digitpart_rest l'' in (digit_val b :: ds, r)
            else ([], l)
        | [] => ([], l)
        end
      else ([], l)
  | [] => ([], [])
  end.

(** A maximal [digitpart] at the head of the input; no digits when the input
    does not start with a digit. *)
Definition digitpart (l : list ascii) : list Z * list ascii :=
  match l with
  | a :: l' =>
      if is_digit a then
        let '(ds, r) := digitpart_rest l' in (digit_val a :: ds, r)
      else ([], l)
  | [] => ([], [])
  end.

Definition of_digits (ds : list Z) : Z :=
  fold_left (fun acc d => 10 * acc + d) ds 0.

(** An optional sign: [true] for ["-"]. *)
Definition sign (l : list ascii) : bool * list ascii :=
  match l with
  | a :: l' =>
      if Ascii.eqb a "-" then (true, l')
      else if Ascii.eqb a "+" then (false, l')
      else (false, l)
  | [] => (false, [])
  end.

(** The most digits [int] converts from a string; more is an error. *)
Definition max_str_digits : Z := 4300.

(** [int(s)] for a string, base ten. *)
Definition int_of_string (s : string) : option Z :=
  let '(neg, l) := sign (strip (list_ascii_of_string s)) in
  match digitpart l with
  | ((_ :: _) as ds, []) =>
      if max_str_digits <? Z.of_nat (List.length ds) then None
      else Some (if neg then - of_digits ds else of_digits ds)
  | _ => None
  end.

Fixpoint digits_of_pos_fuel (fuel : nat) (z : Z) (acc : list ascii)
  : list ascii :=
  match fuel with
  | O => acc
  | S fuel' =>
      let acc' := ascii_of_N (Z.to_N (48 + z mod 10)) :: acc in
      if z <? 10 then acc' else digits_of_pos_fuel fuel' (z / 10) acc'
  end.

(** The decimal digits of a natural number, most significant first. *)
Definition digits_of (z : Z) : list ascii :=
  digits_of_pos_fuel (S (Z.to_nat (Z.log2 z))) z [].

(** [str(z)] for an [int]. *)
Definition str_of_int (z : Z) : string :=
  if z <? 0 then String "-" (string_of_list_ascii (digits_of (- z)))
  else string_of_list_ascii (digits_of z).

(** *** Floats

    [round_dec neg m e10] is the binary64 nearest to [m * 10^e10], ties to
    even, which is how [float] reads a decimal literal. *)
Definition round_dec (neg : bool) (m : positive) (e10 : Z) : spec_float :=
  match e10 with
  | Zneg p =>
      let '(q, e, l) :=
        SFdiv_core_binary prec emax (Zpos m) 0 (Zpos (10 ^ p)) 0 in
      binary_round_aux prec emax neg q e l
  | _ => binary_round prec emax neg (m * Z.to_pos (10 ^ e10)) 0
  end.

Definition lower (a : ascii) : ascii :=
  let n := N_of_ascii a in
  if ((65 <=? n) && (n <=? 90))%N then ascii_of_N (n + 32) else a.

Definition word_is (l : list ascii) (w : string) : bool :=
  String.eqb (string_of_list_ascii (map lower l)) w.

(** An optional [exponent ::= ("e" | "E") [sign] digitpart]; [None] when an
    exponent mark is not followed by one. *)
Definition exponent (l : list ascii) : option (Z * list ascii) :=
  match l with
  | a :: l' =>
      if Ascii.eqb (lower a) "e" then
        let '(neg, l1) := sign l' in
        match digitpart l1 with
        | ((_ :: _) as ds, r) =>
            Some (if neg then - of_digits ds else of_digits ds, r)
        | _ => None
        end
      else Some (0, l)
  | [] => Some (0, [])
  end.

(** [float(s)] for a string. *)
Definition float_of_string (s : string) : option spec_float :=
  let '(neg, l) := sign (strip (list_ascii_of_string s)) in
  if word_is l "inf" || word_is l "infinity" then Some (S754_infinity neg)
  else if word_is l "nan" then Some S754_nan
  else
    let '(ip, l1) := digitpart l in
    let '(fp, l2) :=
      match l1 with
      | a :: l1' => if Ascii.eqb a "." then digitpart l1' else ([], l1)
      | [] => ([], [])
      end in
    match ip ++ fp with
    | [] => None
    | ds =>
        match exponent l2 with
        | Some (e, []) =>
            Some match of_digits ds with
                 | Zpos m => round_dec neg m (e - Z.of_nat (List.length fp))
                 | _ => S754_zero neg
                 end
        | _ => None
        end
    end.

(** [float(z)] for an [int]: the nearest binary64, or [OverflowError]. *)
Definition float_of_int (z : Z) : result spec_float :=
  match binary_normalize prec emax z 0 false with
  | S754_infinity _ => Raise OverflowError
  | x => Ok x
  end.

(** [int(x)] for a [float]: truncation towards zero. *)
Definition int_of_float (x : spec_float) : result Z :=
  match x with
  | S754_nan => Raise ValueError
  | S754_infinity _ => Raise OverflowError
  | S754_zero _ => Ok 0
  | S754_finite s m e =>
      let a := match e with
               | Zneg p => Zpos m / 2 ^ Zpos p
               | _ => Zpos m * 2 ^ e
               end in
      Ok (if s then - a else a)
  end.

Definition float_same (x y : spec_float) : bool :=
  match x, y with
  | S754_finite s m e, S754_finite s' m' e' =>
      Bool.eqb s s' && (m =? m')%positive && (e =? e')
  | _, _ => false
  end.

Fixpoint count_digits (fuel : nat) (q : Z) : Z :=
  match fuel with
  | O => 0
  | S fuel' => if q <? 10 then 1 else 1 + count_digits fuel' (q / 10)
  end.

Fixpoint first_scale (fuel : nat) (num den k : Z) : Z :=
  match fuel with
  | O => k
  | S fuel' =>
      if den <=? num * 10 ^ k then k else first_scale fuel' num den (k + 1)
  end.

(** [floor (log10 (num / den))] for positive [num] and [den]. *)
Definition floor_log10 (num den : Z) : Z :=
  if den <=? num
  then count_digits (S (Z.to_nat (Z.log2 num))) (num / den) - 1
  else - first_scale (S (Z.to_nat (Z.log2 den))) num den 1.

(** The integer [c] nearest to [num / den / 10^p] among those for which
    [c * 10^p] reads back as [x], if there is one. *)
Definition candidate (x : spec_float) (num den p : Z) : option Z :=
  let n := match p with Zneg _ => num * 10 ^ (- p) | _ => num end in
  let d := match p with Zneg _ => den | _ => den * 10 ^ p end in
  let q := n / d in
  let r := n mod d in
  let ok c := match c with
              | Zpos m => float_same (round_dec false m p) x
              | _ => false
              end in
  match ok q, negb (r =? 0) && ok (q + 1) with
  | true, true =>
      Some match 2 * r ?= d with
           | Lt => q
           | Gt => q + 1
           | Eq => if Z.even q then q else q + 1
           end
  | true, false => Some q
  | false, true => Some (q + 1)
  | false, false => None
  end.

(** The shortest digit string that reads back as [x]: try 1, 2, ... digits;
    17 always suffice for a binary64. *)
Fixpoint shortest (fuel : nat) (x : spec_float) (num den e10 n : Z)
  : Z * Z :=
  let p := e10 - n + 1 in
  match fuel with
  | O => (num / den, 0)
  | S fuel' =>
      match candidate x num den p with
      | Some c => (c, p)
      | None => shortest fuel' x num den e10 (n + 1)
      end
  end.

Fixpoint drop_zeros (l : list ascii) : list ascii :=
  match l with
  | a :: l' => if Ascii.eqb a "0" then drop_zeros l' else l
  | [] => []
  end.

Definition zeros (n : Z) : list ascii := repeat "0"%char (Z.to_nat n).

Definition exp_digits (e : Z) : list ascii :=
  let a := Z.abs e in
  (if e <? 0 then "-"%char else "+"%char)
    :: (if a <? 10 then "0"%char :: digits_of a else digits_of a).

(** [repr] of a positive finite float [m * 2^e]. *)
Definition repr_pos (m : positive) (e : Z) : list ascii :=
  let num := match e with Zneg _ => Zpos m | _ => Zpos m * 2 ^ e end in
  let den := match e with Zneg p => 2 ^ Zpos p | _ => 1 end in
  let '(c, p) :=
    shortest 17 (binary_round prec emax false m e) num den
      (floor_log10 num den) 1 in
  let all := digits_of c in
  let decpt := p + Z.of_nat (List.length all) in
  let ds := rev (drop_zeros (rev all)) in
  let len := Z.of_nat (List.length ds) in
  if (decpt <=? -4) || (16 <? decpt) then
    match ds with
    | d1 :: [] => d1 :: "e"%char :: exp_digits (decpt - 1)
    | d1 :: rest => d1 :: "."%char :: rest ++ "e"%char :: exp_digits (decpt - 1)
    | [] => []
    end
  else if decpt <=? 0 then
    "0"%char :: "."%char :: zeros (- decpt) ++ ds
  else if len <=? decpt then
    ds ++ zeros (decpt - len) ++ ["."%char; "0"%char]
  else
    firstn (Z.to_nat decpt) ds ++ "."%char :: skipn (Z.to_nat decpt) ds.

(** [str(x)] and [repr(x)] for a [float]. *)
Definition str_of_float (x : spec_float) : string :=
  match x with
  | S754_nan => "nan"
  | S754_infinity s => if s then "-inf" else "inf"
  | S754_zero s => if s then "-0.0" else "0.0"
  | S754_finite s m e =>
      let r := string_of_list_ascii (repr_pos m e) in
      if s then String "-" r else r
  end.

(** [s.split(sep)] for a one-character separator. *)
Fixpoint split (sep : ascii) (s : string) : list string :=
  match s with
  | EmptyString => [EmptyString]
  | String a s' =>
      if Ascii.eqb a sep then EmptyString :: split sep s'
      else match split sep s' with
           | h :: t => String a h :: t
           | [] => [String a EmptyString]
           end
  end.

(** [s.startswith(p)] *)
Definition startswith (p s : string) : bool := String.prefix p s.

(** [str(c)], [float(c)] and [int(c)] on a cell. *)
Definition str (c : cell) : string :=
  match c with
  | CStr s => s
  | CInt z => str_of_int z
  | CFloat x => str_of_float x
  | CBool b => if b then "True" else "False"
  end.

Definition float (c : cell) : result spec_float :=
  match c with
  | CStr s =>
      match float_of_string s with
      | Some x => Ok x
      | None => Raise ValueError
      end
  | CInt z => float_of_int z
  | CFloat x => Ok x
  | CBool b => float_of_int (if b then 1 else 0)
  end.

Definition int (c : cell) : result Z :=
  match c with
  | CStr s =>
      match int_of_string s with
      | Some z => Ok z
      | None => Raise ValueError
      end
  | CInt z => Ok z
  | CFloat x => int_of_float x
  | CBool b => Ok (if b then 1 else 0)
  end.

End Py.

(** ** The transform: [process_healthsites]

    The three shapes of conditional expression the dictionary literal is
    made of. *)

(** [row[col] if pd.notna(row[col]) else None] *)
Definition copy_if_present (r : row) (col : string) : result value :=
  c <- row_get r col ;;
  if notna c then (v <- row_get r col ;; Ok (of_cell v)) else Ok VNone.

(** [float(row[col]) if pd.notna(row[col]) else dflt] *)
Definition float_if_present (r : row) (col : string) (dflt : value)
  : result value :=
  c <- row_get r col ;;
  if notna c then (v <- row_get r col ;; x <- Py.float v ;; Ok (VFloat x))
  else Ok dflt.

(** [int(row[col]) if pd.notna(row[col]) and row[col] != '' else None] *)
Definition int_if_present (r : row) (col : string) : result value :=
  c <- row_get r col ;;
  nonblank <- (if notna c then (c' <- row_get r col ;; Ok (ne_empty c'))
               else Ok false) ;;
  if nonblank then (v <- row_get r col ;; z <- Py.int v ;; Ok (VInt z))
  else Ok VNone.

(** [str(row[col]).split(';') if pd.notna(row[col]) and row[col] != ''
    else []] *)
Definition split_if_present (r : row) (col : string) : result value :=
  c <- row_get r col ;;
  nonblank <- (if notna c then (c' <- row_get r col ;; Ok (ne_empty c'))
               else Ok false) ;;
  if nonblank
  then (v <- row_get r col ;; Ok (VList (map VStr (Py.split ";" (Py.str v)))))
  else Ok (VList []).

(** [row['amenity'] or row['healthcare']] *)
Definition facility_type_of (r : row) : result cell :=
  a <- row_get r "amenity" ;;
  if cell_truthy a then Ok a else row_get r "healthcare".

Definition location (r : row) : result value :=
  latitude <- float_if_present r "Lattitude" VNone ;;
  longitude <- float_if_present r "Longitude" VNone ;;
  city <- copy_if_present r "addr_city" ;;
  address <- copy_if_present r "addr_street" ;;
  postcode <- copy_if_present r "addr_postcode" ;;
  Ok (VDict [("latitude", latitude); ("longitude", longitude);
             ("city", city); ("address", address); ("postcode", postcode)]).

Definition details (r : row) : result value :=
  operator <- copy_if_present r "operator" ;;
  operator_type <- copy_if_present r "operator_type" ;;
  operational_status <- copy_if_present r "operational_status" ;;
  opening_hours <- copy_if_present r "opening_hours" ;;
  beds <- int_if_present r "beds" ;;
  staff_doctors <- int_if_present r "staff_doctors" ;;
  staff_nurses <- int_if_present r "staff_nurses" ;;
  specialities <- split_if_present r "speciality" ;;
  Ok (VDict [("operator", operator); ("operator_type", operator_type);
             ("operational_status", operational_status);
             ("opening_hours", opening_hours); ("beds", beds);
             ("staff_doctors", staff_doctors);
             ("staff_nurses", staff_nurses);
             ("specialities", specialities)]).

Definition services (r : row) : result value :=
  dispensing <- copy_if_present r "dispensing" ;;
  emergency <- copy_if_present r "emergency" ;;
  wheelchair <- copy_if_present r "wheelchair" ;;
  insurance <- copy_if_present r "insurance" ;;
  Ok (VDict [("dispensing", dispensing); ("emergency", emergency);
             ("wheelchair", wheelchair); ("insurance", insurance)]).

Definition infrastructure (r : row) : result value :=
  water_source <- copy_if_present r "water_source" ;;
  electricity <- copy_if_present r "electricity" ;;
  Ok (VDict [("water_source", water_source); ("electricity", electricity)]).

Definition metadata (r : row) : result value :=
  completeness <- float_if_present r "completeness" (VInt 0) ;;
  osm_id <- row_get r "osm_id" ;;
  last_updated <- copy_if_present r "changeset_timestamp" ;;
  Ok (VDict [("completeness", completeness);
             ("osm_id", VStr (Py.str osm_id));
             ("last_updated", last_updated)]).

(** The dictionary literal of the loop body, before the filter. *)
Definition build_facility (r : row) (facility_type : cell) : result pydict :=
  uuid <- row_get r "uuid" ;;
  c <- row_get r "name" ;;
  name <- (if notna c then (v <- row_get r "name" ;; Ok (of_cell v))
           else Ok (VStr ("Unnamed " ++ Py.str facility_type)%string)) ;;
  loc <- location r ;;
  det <- details r ;;
  srv <- services r ;;
  inf <- infrastructure r ;;
  met <- metadata r ;;
  Ok [("id", VStr (Py.str uuid)); ("name", name);
      ("type", VStr (Py.str facility_type)); ("location", loc);
      ("details", det); ("services", srv); ("infrastructure", inf);
      ("metadata", met)].

(** [{k: v for k, v in facility.items() if v}] *)
Definition drop_falsy (d : pydict) : pydict :=
  filter (fun kv => truthy (snd kv)) d.

(** One iteration of the loop: [None] when the row is skipped by
    [continue], the facility appended otherwise. *)
Definition process_row (r : row) : result (option pydict) :=
  facility_type <- facility_type_of r ;;
  if isna facility_type then Ok None
  else (facility <- build_facility r facility_type ;;
        Ok (Some (drop_falsy facility))).

Fixpoint process_loop (rows : list row) (processed : list pydict)
  : result (list pydict) :=
  match rows with
  | [] => Ok processed
  | r :: rows' =>
      o <- process_row r ;;
      match o with
      | None => process_loop rows' processed
      | Some facility => process_loop rows' (processed ++ [facility])
      end
  end.

Definition process_healthsites (df : dataframe) : result (list pydict) :=
  process_loop df [].

(** ** The summary

    Keys of the two tallies are compared as Python compares dictionary
    keys: numbers by value across [bool], [int] and [float], strings by
    content.  Lists and dictionaries are not hashable. *)

Definition number (v : value) : option (Z * Z) :=
  match v with
  | VBool b => Some (if b then 1 else 0, 0)
  | VInt z => Some (z, 0)
  | VFloat (S754_zero _) => Some (0, 0)
  | VFloat (S754_finite s m e) => Some (if s then Zneg m else Zpos m, e)
  | _ => None
  end.

Definition key_eqb (a b : value) : bool :=
  match number a, number b with
  | Some (m1, e1), Some (m2, e2) =>
      let e := Z.min e1 e2 in
      m1 * 2 ^ (e1 - e) =? m2 * 2 ^ (e2 - e)
  | _, _ =>
      match a, b with
      | VNone, VNone => true
      | VStr s, VStr t => String.eqb s t
      | VFloat (S754_infinity s), VFloat (S754_infinity t) => Bool.eqb s t
      | _, _ => false
      end
  end.

Definition hashable (v : value) : bool :=
  match v with
  | VList _ | VDict _ => false
  | _ => true
  end.

Definition tally := list (value * Z).

(** [t[k] = t.get(k, 0) + 1] *)
Definition incr (k : value) (t : tally) : result tally :=
  if hashable k then
    Ok (dict_set key_eqb k
          (match dict_find key_eqb k t with Some n => n | None => 0 end + 1)
          t)
  else Raise TypeError.

(** [f.get(k1, {}).get(k2, dflt)] *)
Definition get_in (f : pydict) (k1 k2 : string) (dflt : value)
  : result value :=
  match dict_get k1 f with
  | None => Ok dflt
  | Some (VDict d) =>
      Ok match dict_get k2 d with Some v => v | None => dflt end
  | Some _ => Raise AttributeError
  end.

(** [sum(1 for f in fs if cond(f))] *)
Fixpoint count_if (cond : pydict -> result bool) (fs : list pydict)
  : result Z :=
  match fs with
  | [] => Ok 0
  | f :: fs' =>
      b <- cond f ;;
      n <- count_if cond fs' ;;
      Ok ((if b then 1 else 0) + n)
  end.

(** [f.get('location', {}).get('latitude')] *)
Definition has_coordinates (f : pydict) : result bool :=
  v <- get_in f "location" "latitude" VNone ;; Ok (truthy v).

(** [f.get('name') and f['name'].startswith('Unnamed') == False] *)
Definition has_name (f : pydict) : result bool :=
  match dict_get "name" f with
  | None => Ok false
  | Some v =>
      if truthy v then
        match v with
        | VStr s => Ok (negb (Py.startswith "Unnamed" s))
        | _ => Raise AttributeError
        end
      else Ok false
  end.

(** [f.get('details', {}).get('operator')] *)
Definition has_operator (f : pydict) : result bool :=
  v <- get_in f "details" "operator" VNone ;; Ok (truthy v).

Record Quality := {
  with_coordinates : Z;
  with_name : Z;
  with_operator : Z
}.

Record Summary := {
  total_facilities : Z;
  facility_types : tally;
  by_location : tally;
  data_quality : Quality
}.

(** The loop counting by facility type. *)
Fixpoint count_types (fs : list pydict) (t : tally) : result tally :=
  match fs with
  | [] => Ok t
  | facility :: fs' =>
      let ftype := match dict_get "type" facility with
                   | Some v => v
                   | None => VStr "unknown"
                   end in
      t' <- incr ftype t ;;
      count_types fs' t'
  end.

(** The loop counting by city. *)
Fixpoint count_cities (fs : list pydict) (t : tally) : result tally :=
  match fs with
  | [] => Ok t
  | facility :: fs' =>
      city <- get_in facility "location" "city" (VStr "Unknown") ;;
      t' <- (if truthy city then incr city t else Ok t) ;;
      count_cities fs' t'
  end.

(** The summary as it stands once both counting loops have run. *)
Definition summary (processed_facilities : list pydict) : result Summary :=
  coords <- count_if has_coordinates processed_facilities ;;
  names <- count_if has_name processed_facilities ;;
  operators <- count_if has_operator processed_facilities ;;
  types <- count_types processed_facilities [] ;;
  cities <- count_cities processed_facilities [] ;;
  Ok {| total_facilities := Z.of_nat (List.length processed_facilities);
        facility_types := types;
        by_location := cities;
        data_quality := {| with_coordinates := coords;
                           with_name := names;
                           with_operator := operators |} |}.

(** The script up to its summary: the transform, then the summary of
    what it produced.  Nothing has been written yet. *)
Definition tabulate (df : dataframe) : result (list pydict * Summary) :=
  processed_facilities <- process_healthsites df ;;
  s <- summary processed_facilities ;;
  Ok (processed_facilities, s).

(** ** Emission: [json.dump(obj, f, indent=2)]

    The encoder of the standard library with its defaults: ASCII output,
    one item per line, a colon and a space between key and value, NaN and
    the infinities written as [NaN], [Infinity] and [-Infinity]. *)

Module Json.

Definition hex_digit (n : N) : ascii :=
  ascii_of_N (if (n <? 10)%N then 48 + n else 87 + n).

Definition escape_char (a : ascii) : string :=
  let n := N_of_ascii a in
  if (n =? 34)%N then String "\" (String a "")
  else if (n =? 92)%N then "\\"
  else if (n =? 10)%N then "\n"
  else if (n =? 13)%N then "\r"
  else if (n =? 9)%N then "\t"
  else if (n =? 8)%N then "\b"
  else if (n =? 12)%N then "\f"
  else if ((n <? 32) || (126 <? n))%N then
    ("\u00" ++ String (hex_digit (n / 16)) (String (hex_digit (n mod 16)) ""))
      %string
  else String a "".

Fixpoint escape (s : string) : string :=
  match s with
  | EmptyString => EmptyString
  | String a s' => (escape_char a ++ escape s')%string
  end.

Definition quote (s : string) : string :=
  (String (ascii_of_N 34) (escape s) ++ String (ascii_of_N 34) "")%string.

Definition float_repr (x : spec_float) : string :=
  match x with
  | S754_nan => "NaN"
  | S754_infinity s => if s then "-Infinity" else "Infinity"
  | _ => Py.str_of_float x
  end.

(** A line break followed by the indentation of nesting depth [lvl]. *)
Definition newline (lvl : nat) : string :=
  String (ascii_of_N 10) (string_of_list_ascii (repeat " "%char (2 * lvl))).

Fixpoint encode (lvl : nat) (v : value) {struct v} : string :=
  match v with
  | VNone => "null"
  | VBool b => if b then "true" else "false"
  | VInt z => Py.str_of_int z
  | VFloat x => float_repr x
  | VStr s => quote s
  | VList [] => "[]"
  | VList (v0 :: l) =>
      ("[" ++ newline (S lvl) ++ encode (S lvl) v0
       ++ (fix rest (l : list value) : string :=
             match l with
             | [] => ""
             | v' :: l' =>
                 "," ++ newline (S lvl) ++ encode (S lvl) v' ++ rest l'
             end) l
       ++ newline lvl ++ "]")%string
  | VDict [] => "{}"
  | VDict ((k0, v0) :: d) =>
      ("{" ++ newline (S lvl) ++ quote k0 ++ ": " ++ encode (S lvl) v0
       ++ (fix rest (d : list (string * value)) : string :=
             match d with
             | [] => ""
             | (k', v') :: d' =>
                 "," ++ newline (S lvl) ++ quote k' ++ ": "
                 ++ encode (S lvl) v' ++ rest d'
             end) d
       ++ newline lvl ++ "}")%string
  end.

(** The string a dictionary key of another type is written as. *)
Definition key_string (k : value) : string :=
  match k with
  | VStr s => s
  | VFloat x => float_repr x
  | VBool b => if b then "true" else "false"
  | VInt z => Py.str_of_int z
  | _ => "null"
  end.

Definition dumps (v : value) : string := encode 0 v.

End Json.

(** ** The driver *)

Definition tally_value (t : tally) : value :=
  VDict (map (fun kn => (Json.key_string (fst kn), VInt (snd kn))) t).

Definition summary_value (s : Summary) : value :=
  VDict [("total_facilities", VInt (total_facilities s));
         ("facility_types", tally_value (facility_types s));
         ("by_location", tally_value (by_location s));
         ("data_quality",
          VDict [("with_coordinates", VInt (with_coordinates (data_quality s)));
                 ("with_name", VInt (with_name (data_quality s)));
                 ("with_operator", VInt (with_operator (data_quality s)))])].

(** The object written to [healthsites_processed.json]. *)
Definition full_output (processed_facilities : list pydict) (s : Summary)
  : pydict :=
  [("facilities", VList (map VDict processed_facilities));
   ("summary", summary_value s)].

(** [processed_facilities[:50]] *)
Definition sample (processed_facilities : list pydict) : list pydict :=
  firstn 50 processed_facilities.

(** The object written to [healthsites_llm.json]. *)
Definition compact_version (processed_facilities : list pydict) (s : Summary)
  : pydict :=
  [("summary", summary_value s);
   ("sample_facilities", VList (map VDict (sample processed_facilities)))].

Record Outputs := {
  facilities_out : list pydict;
  summary_out : Summary;
  healthsites_processed_json : string;
  healthsites_llm_json : string
}.

(** A run of the script on a loaded table: the two structures and the text
    of the two files, or the exception that ends the run before either file
    is opened.  [json.dump] is taken to succeed, as it does on the Python
    scalars of the cells above; on a frame whose columns all share one
    numeric type the cells are numpy scalars, which [json.dump] refuses,
    and such a frame is not covered. *)
Definition run (df : dataframe) : result Outputs :=
  processed_facilities <- process_healthsites df ;;
  s <- summary processed_facilities ;;
  Ok {| facilities_out := processed_facilities;
        summary_out := s;
        healthsites_processed_json :=
          Json.dumps (VDict (full_output processed_facilities s));
        healthsites_llm_json :=
          Json.dumps (VDict (compact_version processed_facilities s)) |}.

(** The files beside the script, by name.  Both are opened for writing only
    after the summary is complete, so a run that raises leaves them alone. *)
Definition files := list (string * string).

Definition write (path content : string) (fs : files) : files :=
  dict_set String.eqb path content fs.

Definition output_path : string := "healthsites_processed.json".
Definition compact_path : string := "healthsites_llm.json".

Definition execute (df : dataframe) (fs : files) : result files :=
  o <- run df ;;
  Ok (write compact_path (healthsites_llm_json o)
        (write output_path (healthsites_processed_json o) fs)).

(** ** The printed summary

    [str] of a dictionary key, as an f-string shows it.  Keys are hashable:
    lists and dictionaries do not occur. *)
Definition format_key (k : value) : string :=
  match k with
  | VNone => "None"
  | VBool b => Py.str (CBool b)
  | VInt z => Py.str (CInt z)
  | VFloat x => Py.str (CFloat x)
  | VStr s => s
  | VList _ | VDict _ => ""
  end.

(** [sorted(t.items(), key=lambda x: x[1], reverse=True)].  The sort is
    stable, also when reversed: items with equal counts keep their order.
    An item is put before the first one whose count is not larger. *)
Fixpoint insert_by_count (x : value * Z) (l : tally) : tally :=
  match l with
  | [] => [x]
  | y :: l' =>
      if snd x <? snd y then y :: insert_by_count x l' else x :: y :: l'
  end.

Definition sorted_by_count (t : tally) : tally :=
  fold_right insert_by_count [] t.

(** The lines printed under [=== Data Summary ===], one string for each
    call of [print]. *)
Definition report (s : Summary) : list string :=
  [String (ascii_of_N 10) "=== Data Summary ===";
   ("Total facilities: " ++ Py.str_of_int (total_facilities s))%string;
   ("With coordinates: "
    ++ Py.str_of_int (with_coordinates (data_quality s)))%string;
   ("With names: " ++ Py.str_of_int (with_name (data_quality s)))%string;
   ("With operators: "
    ++ Py.str_of_int (with_operator (data_quality s)))%string;
   String (ascii_of_N 10) "Facility types:"]
  ++ map (fun kn =>
            ("  " ++ format_key (fst kn) ++ ": "
             ++ Py.str_of_int (snd kn))%string)
       (sorted_by_count (facility_types s)).

(** ** Predicates of the properties *)

(** The rows that the loop does not pass over with [continue]. *)
Definition kept (r : row) : bool :=
  match facility_type_of r with
  | Ok t => negb (isna t)
  | Raise _ => false
  end.

(** [sum(t.values())] *)
Definition tally_sum (t : tally) : Z :=
  fold_right (fun kn acc => snd kn + acc) 0 t.

Definition float_is_zero (x : spec_float) : bool :=
  match x with
  | S754_zero _ => true
  | _ => false
  end.

(** The facility has a [location.latitude] that is a number other than
    zero. *)
Definition latitude_nonzero (f : pydict) : bool :=
  match dict_get "location" f with
  | Some (VDict loc) =>
      match dict_get "latitude" loc with
      | Some (VFloat x) => negb (float_is_zero x)
      | _ => false
      end
  | _ => false
  end.

(** The cell of [col] is present and [float] rejects it. *)
Definition bad_float (r : row) (col : string) : Prop :=
  exists c, row_get r col = Ok c /\ notna c = true /\ raises (Py.float c).

(** The cell of [col] is present, is not the empty string, and [int]
    rejects it. *)
Definition bad_int (r : row) (col : string) : Prop :=
  exists c,
    row_get r col = Ok c /\ notna c = true /\ ne_empty c = true
    /\ raises (Py.int c).

(** Some numeric field of the row holds a value that does not parse. *)
Definition malformed (r : row) : Prop :=
  bad_float r "Lattitude" \/ bad_float r "Longitude"
  \/ bad_float r "completeness"
  \/ bad_int r "beds" \/ bad_int r "staff_doctors"
  \/ bad_int r "staff_nurses".

(** The value of the [name] entry before the filter. *)
Definition name_of (c facility_type : cell) : value :=
  if notna c then of_cell c
  else VStr ("Unnamed " ++ Py.str facility_type)%string.

(** ** Concrete rows *)

Definition columns : list string :=
  ["uuid"; "name"; "amenity"; "healthcare"; "Lattitude"; "Longitude";
   "addr_city"; "addr_street"; "addr_postcode"; "operator"; "operator_type";
   "operational_status"; "opening_hours"; "beds"; "staff_doctors";
   "staff_nurses"; "speciality"; "dispensing"; "emergency"; "wheelchair";
   "insurance"; "water_source"; "electricity"; "completeness"; "osm_id";
   "changeset_timestamp"].

(** A row of the table all of whose fields are blank. *)
Definition blank_row : row := map (fun col => (col, NaN)) columns.

Definition with_cell (col : string) (c : cell) (r : row) : row :=
  dict_set String.eqb col c r.

(** The binary64 values of the literals [-13.9], [33.7], [12.0] and
    [4526438901.0]. *)
Definition minus_13_9 : spec_float := S754_finite true 7825004352556237 (-49).
Definition plus_33_7 : spec_float := S754_finite false 4742853357574554 (-47).
Definition twelve : spec_float := S754_finite false 6755399441055744 (-49).
Definition osm_4526438901 : spec_float :=
  S754_finite false 4746315197054976 (-20).

(** The example row of the specification. *)
Definition example_row : row :=
  with_cell "uuid" (CStr "abc")
    (with_cell "amenity" (CStr "pharmacy")
       (with_cell "Lattitude" (CFloat minus_13_9)
          (with_cell "Longitude" (CFloat plus_33_7)
             (with_cell "addr_city" (CStr "Lilongwe") blank_row)))).

(** What the transform makes of the example row. *)
Definition example_facility : pydict :=
  [("id", VStr "abc"); ("name", VStr "Unnamed pharmacy");
   ("type", VStr "pharmacy");
   ("location",
    VDict [("latitude", VFloat minus_13_9); ("longitude", VFloat plus_33_7);
           ("city", VStr "Lilongwe"); ("address", VNone);
           ("postcode", VNone)]);
   ("details",
    VDict [("operator", VNone); ("operator_type", VNone);
           ("operational_status", VNone); ("opening_hours", VNone);
           ("beds", VNone); ("staff_doctors", VNone);
           ("staff_nurses", VNone); ("specialities", VList [])]);
   ("services",
    VDict [("dispensing", VNone); ("emergency", VNone);
           ("wheelchair", VNone); ("insurance", VNone)]);
   ("infrastructure",
    VDict [("water_source", VNone); ("electricity", VNone)]);
   ("metadata",
    VDict [("completeness", VInt 0); ("osm_id", VStr "nan");
           ("last_updated", VNone)])].

(** A named clinic on the equator, with an operator, beds and
    specialities.  Its numbers are floats, as in a column that has blanks. *)
Definition clinic_row : row :=
  with_cell "uuid" (CStr "ghi")
    (with_cell "amenity" (CStr "clinic")
       (with_cell "name" (CStr "Area 25")
          (with_cell "Lattitude" (CFloat (S754_zero false))
             (with_cell "Longitude" (CFloat plus_33_7)
                (with_cell "operator" (CStr "MoH")
                   (with_cell "beds" (CFloat twelve)
                      (with_cell "speciality" (CStr "hiv;maternity")
                         (with_cell "osm_id" (CFloat osm_4526438901)
                            blank_row)))))))).

Definition clinic_facility : pydict :=
  [("id", VStr "ghi"); ("name", VStr "Area 25"); ("type", VStr "clinic");
   ("location",
    VDict [("latitude", VFloat (S754_zero false));
           ("longitude", VFloat plus_33_7); ("city", VNone);
           ("address", VNone); ("postcode", VNone)]);
   ("details",
    VDict [("operator", VStr "MoH"); ("operator_type", VNone);
           ("operational_status", VNone); ("opening_hours", VNone);
           ("beds", VInt 12); ("staff_doctors", VNone);
           ("staff_nurses", VNone);
           ("specialities", VList [VStr "hiv"; VStr "maternity"])]);
   ("services",
    VDict [("dispensing", VNone); ("emergency", VNone);
           ("wheelchair", VNone); ("insurance", VNone)]);
   ("infrastructure",
    VDict [("water_source", VNone); ("electricity", VNone)]);
   ("metadata",
    VDict [("completeness", VInt 0); ("osm_id", VStr "4526438901.0");
           ("last_updated", VNone)])].

(** A row whose only type information is in [healthcare]. *)
Definition healthcare_only_row : row :=
  with_cell "uuid" (CStr "def")
    (with_cell "healthcare" (CStr "clinic") blank_row).

(** A blank row but for a bed count that is not a number. *)
Definition untyped_bad_beds_row : row :=
  with_cell "beds" (CStr "abc") blank_row.

(** The example row with a bed count that is not a number. *)
Definition bad_beds_row : row := with_cell "beds" (CStr "abc") example_row.

(** What a run makes of the example row followed by the clinic. *)
Definition two_rows_summary : Summary :=
  {| total_facilities := 2;
     facility_types := [(VStr "pharmacy", 1); (VStr "clinic", 1)];
     by_location := [(VStr "Lilongwe", 1)];
     data_quality := {| with_coordinates := 1;
                        with_name := 1;
                        with_operator := 1 |} |}.

Definition two_rows_outputs : Outputs :=
  {| facilities_out := [example_facility; clinic_facility];
     summary_out := two_rows_summary;
     healthsites_processed_json :=
       Json.dumps
         (VDict (full_output [example_facility; clinic_facility]
                   two_rows_summary));
     healthsites_llm_json :=
       Json.dumps
         (VDict (compact_version [example_facility; clinic_facility]
                   two_rows_summary)) |}.

(** Sixty copies of the example row. *)
Definition sixty_rows : dataframe := repeat example_row 60.

Definition sixty_summary : Summary :=
  {| total_facilities := 60;
     facility_types := [(VStr "pharmacy", 60)];
     by_location := [(VStr "Lilongwe", 60)];
     data_quality := {| with_coordinates := 60;
                        with_name := 0;
                        with_operator := 0 |} |}.

Definition sixty_outputs : Outputs :=
  {| facilities_out := repeat example_facility 60;
     summary_out := sixty_summary;
     healthsites_processed_json :=
       Json.dumps
         (VDict (full_output (repeat example_facility 60) sixty_summary));
     healthsites_llm_json :=
       Json.dumps
         (VDict (compact_version (repeat example_facility 60)
                   sixty_summary)) |}.

(** A clinic with neither [uuid] nor [osm_id]. *)
Definition anonymous_row : row := with_cell "amenity" (CStr "clinic") blank_row.

(** The clinic again, with the number 25.0 for a name. *)
Definition twenty_five : spec_float :=
  S754_finite false 7036874417766400 (-48).
Definition numbered_row : row :=
  with_cell "name" (CFloat twenty_five) clinic_row.

(** The key under which a kept row is counted in [facility_types]. *)
Definition type_label (r : row) : string :=
  match facility_type_of r with
  | Ok t => if str_truthy (Py.str t) then Py.str t else "unknown"
  | Raise _ => "unknown"
  end.

(** The labels of a list, each once, in the order of first appearance. *)
Fixpoint first_seen (l : list string) : list string :=
  match l with
  | [] => []
  | x :: l' => x :: filter (fun y => negb (String.eqb y x)) (first_seen l')
  end.

(** A tally whose keys are all strings. *)
Definition text_tally (t : list (string * Z)) : tally :=
  map (fun kn => (VStr (fst kn), snd kn)) t.

(** [t[k] = t.get(k, 0) + 1] on a tally keyed by strings. *)
Definition bump (k : string) (t : list (string * Z)) : list (string * Z) :=
  dict_set String.eqb k
    (match dict_find String.eqb k t with Some n => n | None => 0 end + 1) t.

(** The number of times [k] is among the labels. *)
Definition occurrences (k : string) (labels : list string) : Z :=
  Z.of_nat (List.length (filter (fun l => String.eqb l k) labels)).

(** The row's [operator] is present and true in a condition. *)
Definition operator_counts (r : row) : bool :=
  match row_get r "operator" with
  | Ok c => notna c && cell_truthy c
  | Raise _ => false
  end.

(** The row's [addr_city] is present and true in a condition. *)
Definition city_counts (r : row) : bool :=
  match row_get r "addr_city" with
  | Ok c => notna c && cell_truthy c
  | Raise _ => false
  end.

(** The row's [name] is a string, not empty, that does not start with
    [Unnamed]. *)
Definition name_counts (r : row) : bool :=
  match row_get r "name" with
  | Ok (CStr s) => str_truthy s && negb (Py.startswith "Unnamed" s)
  | _ => false
  end.

(** The row's [name] is a number other than zero, or [True]. *)
Definition numeric_name (r : row) : bool :=
  match row_get r "name" with
  | Ok (CStr _) => false
  | Ok c => notna c && cell_truthy c
  | Raise _ => false
  end.

(** [sep.join(parts)] *)
Fixpoint join (sep : string) (parts : list string) : string :=
  match parts with
  | [] => ""
  | [x] => x
  | x :: rest => (x ++ sep ++ join sep rest)%string
  end.

(** The character [a] occurs in [s]. *)
Fixpoint has_char (a : ascii) (s : string) : bool :=
  match s with
  | EmptyString => false
  | String b s' => Ascii.eqb b a || has_char a s'
  end.

(** The row has every column the script indexes. *)
Definition complete (r : row) : Prop :=
  forall col, In col columns -> exists c, row_get r col = Ok c.

(** The two exceptions of [int] and [float]. *)
Definition parse_error (e : exn) : Prop :=
  e = ValueError \/ e = OverflowError.

(** The run's outputs, given the facilities and the summary. *)
Definition outputs_of (processed_facilities : list pydict) (s : Summary)
  : Outputs :=
  {| facilities_out := processed_facilities;
     summary_out := s;
     healthsites_processed_json :=
       Json.dumps (VDict (full_output processed_facilities s));
     healthsites_llm_json :=
       Json.dumps (VDict (compact_version processed_facilities s)) |}.

(** A pharmacy, a clinic, a skipped row and the pharmacy again. *)
Definition mixed_rows : dataframe :=
  [example_row; clinic_row; healthcare_only_row; example_row].

Definition mixed_summary : Summary :=
  {| total_facilities := 3;
     facility_types := [(VStr "pharmacy", 2); (VStr "clinic", 1)];
     by_location := [(VStr "Lilongwe", 2)];
     data_quality := {| with_coordinates := 2;
                        with_name := 1;
                        with_operator := 1 |} |}.

(** ** Properties *)

(** *** The error monad *)

Lemma raises_bind_l {A B} (m : result A) (k : A -> result B) :
  raises m -> raises (bind m k).
Proof. intros [e ->]. exists e. reflexivity. Qed.

Lemma raises_bind_r {A B} (m : result A) (k : A -> result B) :
  (forall a, m = Ok a -> raises (k a)) -> raises (bind m k).
Proof.
  destruct m as [a | e]; intros H.
  - apply H. reflexivity.
  - exists e. reflexivity.
Qed.

Lemma bind_ok {A B} (m : result A) (k : A -> result B) (b : B) :
  bind m k = Ok b -> exists a, m = Ok a /\ k a = Ok b.
Proof.
  destruct m as [a | e]; simpl; intros H.
  - exists a. split; [reflexivity | exact H].
  - discriminate H.
Qed.

(** Inverts every hypothesis of the form [x <- m ;; k = Ok b]. *)
Ltac bind_inv :=
  repeat match goal with
         | H : bind _ _ = Ok _ |- _ =>
             let a := fresh "a" in
             let Ha := fresh "Ha" in
             apply bind_ok in H; destruct H as (a & Ha & H)
         | H : Ok _ = Ok _ |- _ => injection H as H
         end.

(** *** The conversions on sample values *)

Example float_reads_literals :
  Py.float_of_string "-13.9" = Some minus_13_9
  /\ Py.float_of_string " 33.7 " = Some plus_33_7
  /\ Py.float_of_string "12" = Some twelve
  /\ Py.float_of_string "25.0" = Some twenty_five
  /\ Py.float_of_string "4526438901" = Some osm_4526438901
  /\ Py.float_of_string "1_0.5e-1" = Py.float_of_string "1.05"
  /\ Py.float_of_string "-inf" = Some (S754_infinity true)
  /\ Py.float_of_string "1e-400" = Some (S754_zero false)
  /\ Py.float_of_string "12,5" = None
  /\ Py.float_of_string "" = None.
Proof. vm_compute. repeat split; reflexivity. Qed.

Example float_prints_shortest :
  Py.str_of_float minus_13_9 = "-13.9"
  /\ Py.str_of_float plus_33_7 = "33.7"
  /\ Py.str (CFloat osm_4526438901) = "4526438901.0"
  /\ Py.str (CFloat (S754_finite false 5 (-1))) = "2.5"
  /\ Py.str (CFloat (S754_finite false 1 (-1074))) = "5e-324"
  /\ Py.str NaN = "nan".
Proof. vm_compute. repeat split; reflexivity. Qed.

Example int_reads_literals :
  Py.int (CStr " +1_000 ") = Ok 1000
  /\ Py.int (CStr "-007") = Ok (-7)
  /\ Py.int (CStr "12.5") = Raise ValueError
  /\ Py.int (CStr "abc") = Raise ValueError
  /\ Py.int (CFloat (S754_finite true 25 (-1))) = Ok (-12)
  /\ Py.int (CFloat (S754_infinity false)) = Raise OverflowError.
Proof. vm_compute. repeat split; reflexivity. Qed.

Example separators_are_not_blanks :
  Py.int (CStr (String (ascii_of_N 28) "5")) = Raise ValueError
  /\ Py.int (CStr (String (ascii_of_N 30) "5")) = Raise ValueError
  /\ Py.float (CStr (String (ascii_of_N 28) "5")) = Raise ValueError
  /\ Py.float (CStr (String "5" (String (ascii_of_N 29) ""))) = Raise ValueError
  /\ Py.int (CStr (String (ascii_of_N 160) (String (ascii_of_N 9) "5")))
     = Ok 5
  /\ Py.int (CStr (String "5" (String (ascii_of_N 133) ""))) = Ok 5.
Proof. vm_compute. repeat split; reflexivity. Qed.

Example int_digit_cap :
  Py.int (CStr (string_of_list_ascii (repeat "1"%char 4301)))
    = Raise ValueError
  /\ Py.int (CStr (string_of_list_ascii (repeat "0"%char 4301)))
     = Raise ValueError
  /\ (exists z,
        Py.int (CStr (string_of_list_ascii (repeat "1"%char 4300))) = Ok z).
Proof.
  split; [vm_compute; reflexivity |].
  split; [vm_compute; reflexivity |].
  eexists. vm_compute. reflexivity.
Qed.

Example split_keeps_empty_parts :
  Py.split ";" "hiv;;maternity;" = ["hiv"; ""; "maternity"; ""].
Proof. reflexivity. Qed.

(** *** The loop of [process_healthsites] *)

Lemma process_loop_acc (rows : list row) :
  forall acc,
    process_loop rows acc =
    (new <- process_loop rows [] ;; Ok (acc ++ new)).
Proof.
  induction rows as [| r rows IH]; intros acc; simpl.
  - rewrite app_nil_r. reflexivity.
  - destruct (process_row r) as [[f |] | e]; simpl.
    + rewrite (IH (acc ++ [f])), (IH [f]).
      destruct (process_loop rows []) as [new | e]; simpl.
      * rewrite <- app_assoc. reflexivity.
      * reflexivity.
    + apply IH.
    + reflexivity.
Qed.

(** The loop, read from the first row on. *)
Lemma process_healthsites_cons (r : row) (df : dataframe) :
  process_healthsites (r :: df) =
  (o <- process_row r ;;
   rest <- process_healthsites df ;;
   Ok match o with
      | Some facility => facility :: rest
      | None => rest
      end).
Proof.
  unfold process_healthsites. simpl.
  destruct (process_row r) as [[f |] | e]; simpl.
  - rewrite process_loop_acc.
    destruct (process_loop df []); reflexivity.
  - destruct (process_loop df []); reflexivity.
  - reflexivity.
Qed.

Lemma process_healthsites_nil : process_healthsites [] = Ok [].
Proof. reflexivity. Qed.

(** Every facility of the result is what some row of the table produced. *)
Lemma produced_from_row (df : dataframe) :
  forall fs f,
    process_healthsites df = Ok fs -> In f fs ->
    exists r, In r df /\ process_row r = Ok (Some f).
Proof.
  induction df as [| r df IH]; intros fs f Hrun Hin.
  - rewrite process_healthsites_nil in Hrun. injection Hrun as <-.
    destruct Hin.
  - rewrite process_healthsites_cons in Hrun. bind_inv. subst fs.
    destruct a as [f0 |].
    + destruct Hin as [<- | Hin].
      * exists r. split; [left; reflexivity | assumption].
      * destruct (IH _ _ Ha0 Hin) as (r' & Hr' & Hf).
        exists r'. split; [right; assumption | assumption].
    + destruct (IH _ _ Ha0 Hin) as (r' & Hr' & Hf).
      exists r'. split; [right; assumption | assumption].
Qed.

(** A row that raises ends the whole loop, wherever it stands. *)
Lemma process_healthsites_raises (df : dataframe) (r : row) :
  In r df -> raises (process_row r) -> raises (process_healthsites df).
Proof.
  induction df as [| r0 df IH]; intros Hin Hr.
  - destruct Hin.
  - rewrite process_healthsites_cons.
    destruct Hin as [-> | Hin].
    + apply raises_bind_l. assumption.
    + apply raises_bind_r. intros o _.
      apply raises_bind_l. apply IH; assumption.
Qed.

(** The loop returns when no row raises. *)
Lemma process_healthsites_returns (df : dataframe) :
  (forall r, In r df -> exists o, process_row r = Ok o) ->
  exists fs, process_healthsites df = Ok fs.
Proof.
  induction df as [| r df IH]; intros Hrows.
  - exists []. reflexivity.
  - destruct (Hrows r (or_introl eq_refl)) as [o Ho].
    destruct IH as [fs Hfs].
    { intros r' Hr'. apply Hrows. right. assumption. }
    rewrite process_healthsites_cons, Ho, Hfs. simpl. eauto.
Qed.

Lemma process_row_kept (r : row) (f : pydict) :
  process_row r = Ok (Some f) -> kept r = true.
Proof.
  unfold process_row, kept. intros H.
  destruct (facility_type_of r) as [t | e]; simpl in H; [| discriminate].
  destruct (isna t); [discriminate | reflexivity].
Qed.

Lemma process_row_skipped (r : row) :
  process_row r = Ok None -> kept r = false.
Proof.
  unfold process_row, kept. intros H.
  destruct (facility_type_of r) as [t | e]; simpl in H; [| discriminate].
  destruct (isna t); [reflexivity |].
  destruct (build_facility r t); discriminate.
Qed.

(** C7: when the transform returns, its facilities are those of the rows it
    did not skip, one per row and in the order of the rows. *)
Theorem order_preserved (df : dataframe) (fs : list pydict) :
  process_healthsites df = Ok fs ->
  Forall2 (fun r f => process_row r = Ok (Some f)) (filter kept df) fs.
Proof.
  revert fs. induction df as [| r df IH]; intros fs Hrun.
  - rewrite process_healthsites_nil in Hrun. injection Hrun as <-.
    constructor.
  - rewrite process_healthsites_cons in Hrun. bind_inv. subst fs.
    simpl. destruct a as [f |].
    + rewrite (process_row_kept _ _ Ha). constructor; auto.
    + rewrite (process_row_skipped _ Ha). auto.
Qed.

Lemma order_preserved_witness :
  Forall2 (fun r f => process_row r = Ok (Some f))
    (filter kept [blank_row; example_row; healthcare_only_row; clinic_row])
    [example_facility; clinic_facility].
Proof.
  apply (order_preserved
           [blank_row; example_row; healthcare_only_row; clinic_row]).
  vm_compute. reflexivity.
Defined.

(** *** The sparse filter *)

Lemma truthy_not_empty (v : value) :
  truthy v = true ->
  v <> VDict [] /\ v <> VStr "" /\ v <> VList [] /\ v <> VInt 0
  /\ (forall s, v <> VFloat (S754_zero s)) /\ v <> VNone.
Proof.
  intros H. repeat split; repeat intro; subst v; discriminate H.
Qed.

Lemma process_row_filtered (r : row) (f : pydict) :
  process_row r = Ok (Some f) -> exists d, f = drop_falsy d.
Proof.
  unfold process_row. intros H. bind_inv.
  destruct (isna a); [discriminate |]. bind_inv.
  eexists. symmetry. exact H.
Qed.

(** C6: in a facility of the result no top-level key maps to an empty
    mapping, an empty string, an empty list, a numeric zero or [None];
    every value kept is true in a condition. *)
Theorem produced_top_level_truthy (df : dataframe) (fs : list pydict)
  (f : pydict) (k : string) (v : value) :
  process_healthsites df = Ok fs -> In f fs -> In (k, v) f ->
  truthy v = true
  /\ v <> VDict [] /\ v <> VStr "" /\ v <> VList [] /\ v <> VInt 0
  /\ (forall s, v <> VFloat (S754_zero s)) /\ v <> VNone.
Proof.
  intros Hrun Hf Hkv.
  destruct (produced_from_row _ _ _ Hrun Hf) as (r & _ & Hr).
  destruct (process_row_filtered _ _ Hr) as [d ->].
  apply filter_In in Hkv. destruct Hkv as [_ Hv]. simpl in Hv.
  split; [assumption | apply truthy_not_empty; assumption].
Qed.

Lemma produced_top_level_truthy_witness :
  truthy (VStr "Area 25") = true
  /\ VStr "Area 25" <> VDict [] /\ VStr "Area 25" <> VStr ""
  /\ VStr "Area 25" <> VList [] /\ VStr "Area 25" <> VInt 0
  /\ (forall s, VStr "Area 25" <> VFloat (S754_zero s))
  /\ VStr "Area 25" <> VNone.
Proof.
  apply (produced_top_level_truthy [example_row; clinic_row]
           [example_facility; clinic_facility] clinic_facility "name").
  - vm_compute. reflexivity.
  - simpl. right. left. reflexivity.
  - simpl. right. left. reflexivity.
Defined.

(** *** The summary *)

Lemma dict_set_incr_sum (k : value) (t : tally) :
  tally_sum
    (dict_set key_eqb k
       (match dict_find key_eqb k t with Some n => n | None => 0 end + 1) t)
  = tally_sum t + 1.
Proof.
  induction t as [| [k' n] t IH]; simpl.
  - reflexivity.
  - destruct (key_eqb k' k); simpl.
    + lia.
    + rewrite IH. lia.
Qed.

Lemma incr_sum (k : value) (t t' : tally) :
  incr k t = Ok t' -> tally_sum t' = tally_sum t + 1.
Proof.
  unfold incr. destruct (hashable k); [| discriminate].
  intros H. injection H as <-. apply dict_set_incr_sum.
Qed.

Lemma count_types_sum (fs : list pydict) :
  forall t t',
    count_types fs t = Ok t' ->
    tally_sum t' = tally_sum t + Z.of_nat (List.length fs).
Proof.
  induction fs as [| f fs IH]; intros t t' H.
  - simpl in H. injection H as <-. simpl. lia.
  - cbn [count_types] in H. bind_inv.
    rewrite (IH _ _ H), (incr_sum _ _ _ Ha).
    cbn [List.length]. lia.
Qed.

Lemma summary_inv (fs : list pydict) (s : Summary) :
  summary fs = Ok s ->
  total_facilities s = Z.of_nat (List.length fs)
  /\ count_types fs [] = Ok (facility_types s)
  /\ count_cities fs [] = Ok (by_location s)
  /\ count_if has_coordinates fs = Ok (with_coordinates (data_quality s))
  /\ count_if has_name fs = Ok (with_name (data_quality s))
  /\ count_if has_operator fs = Ok (with_operator (data_quality s)).
Proof.
  unfold summary. intros H. bind_inv. subst s. simpl.
  repeat split; assumption.
Qed.

Lemma run_inv (df : dataframe) (o : Outputs) :
  run df = Ok o ->
  process_healthsites df = Ok (facilities_out o)
  /\ summary (facilities_out o) = Ok (summary_out o)
  /\ healthsites_processed_json o =
     Json.dumps (VDict (full_output (facilities_out o) (summary_out o)))
  /\ healthsites_llm_json o =
     Json.dumps (VDict (compact_version (facilities_out o) (summary_out o))).
Proof.
  unfold run. intros H. bind_inv. subst o. simpl.
  repeat split; assumption.
Qed.

(** C5: after a run, [total_facilities] is the length of the facility
    sequence and the counts of [facility_types] add up to it. *)
Theorem summary_consistent (df : dataframe) (o : Outputs) :
  run df = Ok o ->
  total_facilities (summary_out o) =
    Z.of_nat (List.length (facilities_out o))
  /\ tally_sum (facility_types (summary_out o)) =
     total_facilities (summary_out o).
Proof.
  intros H. apply run_inv in H. destruct H as (_ & Hs & _).
  apply summary_inv in Hs. destruct Hs as (Htot & Hty & _).
  split; [assumption |].
  rewrite (count_types_sum _ _ _ Hty), Htot. reflexivity.
Qed.

Lemma run_two_rows :
  run [example_row; healthcare_only_row; clinic_row] = Ok two_rows_outputs.
Proof. vm_compute. reflexivity. Qed.

Lemma summary_consistent_witness :
  total_facilities two_rows_summary = 2
  /\ tally_sum (facility_types two_rows_summary) =
     total_facilities two_rows_summary.
Proof.
  exact (summary_consistent [example_row; healthcare_only_row; clinic_row]
           two_rows_outputs run_two_rows).
Defined.

(** *** The sample *)

(** C8: the sample written to the second file is the first 50 facilities
    of the sequence, so it has [min(50, total_facilities)] entries. *)
Theorem sample_bounded (df : dataframe) (o : Outputs) :
  run df = Ok o ->
  healthsites_llm_json o =
    Json.dumps (VDict (compact_version (facilities_out o) (summary_out o)))
  /\ dict_get "sample_facilities"
       (compact_version (facilities_out o) (summary_out o)) =
     Some (VList (map VDict (firstn 50 (facilities_out o))))
  /\ Z.of_nat (List.length (firstn 50 (facilities_out o))) =
     Z.min 50 (total_facilities (summary_out o)).
Proof.
  intros H. apply run_inv in H. destruct H as (_ & Hs & _ & Hllm).
  apply summary_inv in Hs. destruct Hs as (Htot & _).
  split; [assumption |]. split; [reflexivity |].
  rewrite length_firstn, Htot. lia.
Qed.

Lemma sample_bounded_witness :
  healthsites_llm_json sixty_outputs =
    Json.dumps
      (VDict (compact_version (repeat example_facility 60) sixty_summary))
  /\ dict_get "sample_facilities"
       (compact_version (repeat example_facility 60) sixty_summary) =
     Some (VList (map VDict (firstn 50 (repeat example_facility 60))))
  /\ Z.of_nat (List.length (firstn 50 (repeat example_facility 60))) =
     Z.min 50 60.
Proof.
  apply (sample_bounded sixty_rows sixty_outputs).
  unfold run.
  replace (process_healthsites sixty_rows)
    with (Ok (repeat example_facility 60)) by (vm_compute; reflexivity).
  cbn [bind].
  replace (summary (repeat example_facility 60))
    with (Ok sixty_summary) by (vm_compute; reflexivity).
  reflexivity.
Defined.

(** *** The shape of a facility *)

Lemma float_if_present_inv (r : row) (col : string) (dflt v : value) :
  float_if_present r col dflt = Ok v ->
  exists c,
    row_get r col = Ok c
    /\ ((isna c = true /\ v = dflt)
        \/ (isna c = false /\ exists x, Py.float c = Ok x /\ v = VFloat x)).
Proof.
  unfold float_if_present, notna. intros H. bind_inv.
  exists a. split; [assumption |].
  destruct (isna a); simpl in H.
  - left. injection H as <-. split; reflexivity.
  - right. bind_inv. rewrite Ha in Ha0. injection Ha0 as <-.
    split; [reflexivity |]. exists a1. split; [assumption | congruence].
Qed.

Lemma split_if_present_blank (r : row) (col : string) (v : value) :
  row_get r col = Ok NaN \/ row_get r col = Ok (CStr "") ->
  split_if_present r col = Ok v -> v = VList [].
Proof.
  unfold split_if_present.
  intros [E | E]; rewrite E; simpl; intros H; injection H as <-; reflexivity.
Qed.

Lemma location_inv (r : row) (v : value) :
  location r = Ok v ->
  exists lat rest,
    v = VDict (("latitude", lat) :: rest)
    /\ float_if_present r "Lattitude" VNone = Ok lat.
Proof.
  unfold location. intros H. bind_inv. subst v.
  do 2 eexists. split; [reflexivity | assumption].
Qed.

Lemma details_inv (r : row) (v : value) :
  details r = Ok v ->
  exists kv d sp,
    v = VDict (kv :: d)
    /\ dict_get "specialities" (kv :: d) = Some sp
    /\ split_if_present r "speciality" = Ok sp.
Proof.
  unfold details. intros H. bind_inv. subst v.
  do 3 eexists. split; [reflexivity |]. split; [reflexivity | assumption].
Qed.

Lemma build_facility_inv (r : row) (t : cell) (d : pydict) :
  build_facility r t = Ok d ->
  exists v_id v_name loc det srv inf met,
    d = [("id", v_id); ("name", v_name); ("type", VStr (Py.str t));
         ("location", loc); ("details", det); ("services", srv);
         ("infrastructure", inf); ("metadata", met)]
    /\ location r = Ok loc /\ details r = Ok det /\ metadata r = Ok met.
Proof.
  unfold build_facility. intros H. bind_inv. subst d.
  do 7 eexists. split; [reflexivity |]. repeat split; assumption.
Qed.

(** The filter keeps [location] and [details]: a dictionary literal with
    keys is never empty. *)
Lemma drop_falsy_location (v1 v2 v3 : value) kv loc (rest : pydict) :
  dict_get "location"
    (drop_falsy (("id", v1) :: ("name", v2) :: ("type", v3)
                 :: ("location", VDict (kv :: loc)) :: rest))
  = Some (VDict (kv :: loc)).
Proof.
  unfold drop_falsy. cbn [filter snd].
  destruct (truthy v1), (truthy v2), (truthy v3); reflexivity.
Qed.

Lemma drop_falsy_details (v1 v2 v3 : value) kv loc kv' det (rest : pydict) :
  dict_get "details"
    (drop_falsy (("id", v1) :: ("name", v2) :: ("type", v3)
                 :: ("location", VDict (kv :: loc))
                 :: ("details", VDict (kv' :: det)) :: rest))
  = Some (VDict (kv' :: det)).
Proof.
  unfold drop_falsy. cbn [filter snd].
  destruct (truthy v1), (truthy v2), (truthy v3); reflexivity.
Qed.

Lemma process_row_inv (r : row) (f : pydict) :
  process_row r = Ok (Some f) ->
  exists t d,
    facility_type_of r = Ok t /\ isna t = false
    /\ build_facility r t = Ok d /\ f = drop_falsy d.
Proof.
  unfold process_row. intros H. bind_inv.
  destruct (isna a) eqn:E; [discriminate |]. bind_inv.
  exists a, a0. repeat split; congruence.
Qed.

(** *** The coordinates counter *)

Lemma count_if_filter (cond : pydict -> result bool) (p : pydict -> bool)
  (fs : list pydict) :
  (forall f, In f fs -> cond f = Ok (p f)) ->
  count_if cond fs = Ok (Z.of_nat (List.length (filter p fs))).
Proof.
  induction fs as [| f fs IH]; intros H.
  - reflexivity.
  - cbn [count_if filter].
    rewrite (H f (or_introl eq_refl)), IH.
    + simpl. destruct (p f); cbn [List.length]; f_equal; lia.
    + intros f' Hf'. apply H. right. assumption.
Qed.

(** For a facility made from row [r] the counter's test looks at the
    latitude the row gave, and at nothing else. *)
Lemma has_coordinates_of_row (r : row) (f : pydict) :
  process_row r = Ok (Some f) ->
  exists lat,
    float_if_present r "Lattitude" VNone = Ok lat
    /\ has_coordinates f = Ok (truthy lat)
    /\ latitude_nonzero f = truthy lat.
Proof.
  intros H.
  destruct (process_row_inv _ _ H) as (t & d & _ & _ & Hd & ->).
  destruct (build_facility_inv _ _ _ Hd)
    as (v1 & v2 & loc & det & srv & inf & met & -> & Hloc & _).
  destruct (location_inv _ _ Hloc) as (lat & rest & -> & Hlat).
  exists lat. split; [assumption |].
  unfold has_coordinates, get_in, latitude_nonzero.
  rewrite drop_falsy_location. cbn [dict_get String.eqb Ascii.eqb Bool.eqb].
  destruct (float_if_present_inv _ _ _ _ Hlat) as (c & _ & [[_ ->] | [_ Hx]]).
  - split; reflexivity.
  - destruct Hx as (x & _ & ->). simpl. destruct x; split; reflexivity.
Qed.

(** C10: [with_coordinates] counts the facilities whose latitude is present
    and not zero; two rows with the same [Lattitude] cell fare alike in
    that count whatever their [Longitude] cells hold. *)
Theorem with_coordinates_counts_latitude (df : dataframe) (o : Outputs) :
  run df = Ok o ->
  with_coordinates (data_quality (summary_out o)) =
    Z.of_nat (List.length (filter latitude_nonzero (facilities_out o)))
  /\ (forall r r' f f',
        row_get r "Lattitude" = row_get r' "Lattitude" ->
        process_row r = Ok (Some f) -> process_row r' = Ok (Some f') ->
        has_coordinates f = has_coordinates f').
Proof.
  intros H. split.
  - apply run_inv in H. destruct H as (Hp & Hs & _).
    apply summary_inv in Hs. destruct Hs as (_ & _ & _ & Hc & _).
    rewrite (count_if_filter has_coordinates latitude_nonzero) in Hc.
    + injection Hc as <-. reflexivity.
    + intros f Hf.
      destruct (produced_from_row _ _ _ Hp Hf) as (r & _ & Hr).
      destruct (has_coordinates_of_row _ _ Hr) as (lat & _ & -> & ->).
      reflexivity.
  - intros r r' f f' Hsame Hr Hr'.
    destruct (has_coordinates_of_row _ _ Hr) as (lat & Hlat & -> & _).
    destruct (has_coordinates_of_row _ _ Hr') as (lat' & Hlat' & -> & _).
    unfold float_if_present in Hlat, Hlat'. rewrite Hsame in Hlat.
    rewrite Hlat in Hlat'. congruence.
Qed.

Lemma with_coordinates_counts_latitude_witness :
  with_coordinates (data_quality two_rows_summary) =
    Z.of_nat
      (List.length
         (filter latitude_nonzero [example_facility; clinic_facility])).
Proof.
  apply (with_coordinates_counts_latitude
           [example_row; healthcare_only_row; clinic_row] two_rows_outputs).
  vm_compute. reflexivity.
Defined.

(** *** Blank specialities *)

(** C3: for a kept row whose [speciality] is blank the [specialities] entry
    is the empty list, and the facility that is emitted still carries it
    inside [details]: the filter looks at top-level values only. *)
Theorem blank_speciality_stays (r : row) (f : pydict) :
  process_row r = Ok (Some f) ->
  row_get r "speciality" = Ok NaN \/ row_get r "speciality" = Ok (CStr "") ->
  exists d,
    dict_get "details" f = Some (VDict d)
    /\ dict_get "specialities" d = Some (VList []).
Proof.
  intros H Hblank.
  destruct (process_row_inv _ _ H) as (t & d & _ & _ & Hd & ->).
  destruct (build_facility_inv _ _ _ Hd)
    as (v1 & v2 & loc & det & srv & inf & met & -> & Hloc & Hdet & _).
  destruct (location_inv _ _ Hloc) as (lat & rest & -> & _).
  destruct (details_inv _ _ Hdet) as (kv & det' & sp & -> & Hget & Hsp).
  rewrite (split_if_present_blank _ _ _ Hblank Hsp) in Hget.
  exists (kv :: det'). split; [apply drop_falsy_details | assumption].
Qed.

Lemma blank_speciality_stays_witness :
  exists d,
    dict_get "details" example_facility = Some (VDict d)
    /\ dict_get "specialities" d = Some (VList []).
Proof.
  apply (blank_speciality_stays example_row example_facility).
  - vm_compute. reflexivity.
  - left. vm_compute. reflexivity.
Defined.

(** *** The example of the specification *)

(** C2: the example row yields a facility that also has [details],
    [services] and [infrastructure], and entries that are [None] in every
    section, among them [address] and [last_updated]. *)
Theorem example_row_facility :
  process_healthsites [example_row] = Ok [example_facility]
  /\ map fst example_facility =
     ["id"; "name"; "type"; "location"; "details"; "services";
      "infrastructure"; "metadata"]
  /\ get_in example_facility "location" "address" (VStr "absent") = Ok VNone
  /\ get_in example_facility "metadata" "last_updated" (VStr "absent")
     = Ok VNone.
Proof. vm_compute. repeat split; reflexivity. Qed.

(** *** Rows typed by [healthcare] alone *)

(** A blank [amenity] is NaN, NaN is true in a condition, so [or] never
    reaches [healthcare] and the row is skipped. *)
Lemma blank_amenity_skipped (r : row) :
  row_get r "amenity" = Ok NaN -> process_row r = Ok None.
Proof.
  intros H. unfold process_row, facility_type_of. rewrite H. reflexivity.
Qed.

(** C1: a row with a blank [amenity] and [healthcare] set to [clinic]
    produces no facility. *)
Theorem healthcare_only_row_skipped :
  row_get healthcare_only_row "amenity" = Ok NaN
  /\ row_get healthcare_only_row "healthcare" = Ok (CStr "clinic")
  /\ process_row healthcare_only_row = Ok None
  /\ process_healthsites [healthcare_only_row] = Ok [].
Proof. vm_compute. repeat split; reflexivity. Qed.

(** *** Values that do not parse *)

Lemma text_not_a_float (s : string) :
  Py.float_of_string s = None -> raises (Py.float (CStr s)).
Proof. intros H. exists ValueError. simpl. rewrite H. reflexivity. Qed.

Lemma text_not_an_int (s : string) :
  Py.int_of_string s = None -> raises (Py.int (CStr s)).
Proof. intros H. exists ValueError. simpl. rewrite H. reflexivity. Qed.

Lemma float_if_present_raises (r : row) (col : string) (dflt : value) :
  bad_float r col -> raises (float_if_present r col dflt).
Proof.
  intros (c & Hc & Hna & He). unfold float_if_present.
  rewrite Hc. cbn [bind]. rewrite Hna.
  apply raises_bind_l. assumption.
Qed.

Lemma int_if_present_raises (r : row) (col : string) :
  bad_int r col -> raises (int_if_present r col).
Proof.
  intros (c & Hc & Hna & Hne & He). unfold int_if_present.
  rewrite Hc. cbn [bind]. rewrite Hna. cbn [bind]. rewrite Hne.
  apply raises_bind_l. assumption.
Qed.

(** Walks down a chain of binds to the first step that [tac] shows to
    raise. *)
Ltac raise_at tac :=
  first [ apply raises_bind_l; solve [tac]
        | apply raises_bind_r; intros ? _; raise_at tac ].

Lemma location_raises (r : row) :
  bad_float r "Lattitude" \/ bad_float r "Longitude" ->
  raises (location r).
Proof.
  unfold location.
  intros [H | H]; raise_at ltac:(apply float_if_present_raises; exact H).
Qed.

Lemma details_raises (r : row) :
  bad_int r "beds" \/ bad_int r "staff_doctors" \/ bad_int r "staff_nurses" ->
  raises (details r).
Proof.
  unfold details.
  intros [H | [H | H]];
    raise_at ltac:(apply int_if_present_raises; exact H).
Qed.

Lemma metadata_raises (r : row) :
  bad_float r "completeness" -> raises (metadata r).
Proof.
  unfold metadata. intros H.
  raise_at ltac:(apply float_if_present_raises; exact H).
Qed.

Lemma build_facility_raises (r : row) (t : cell) :
  malformed r -> raises (build_facility r t).
Proof.
  unfold build_facility, malformed. intros H.
  assert (Hsec : raises (location r) \/ raises (details r)
                 \/ raises (metadata r)).
  { destruct H as [H | [H | [H | [H | [H | H]]]]].
    - left. apply location_raises. left. exact H.
    - left. apply location_raises. right. exact H.
    - right. right. apply metadata_raises. exact H.
    - right. left. apply details_raises. left. exact H.
    - right. left. apply details_raises. right. left. exact H.
    - right. left. apply details_raises. right. right. exact H. }
  destruct Hsec as [Hs | [Hs | Hs]]; raise_at ltac:(exact Hs).
Qed.

Lemma kept_malformed_raises (r : row) :
  kept r = true -> malformed r -> raises (process_row r).
Proof.
  unfold kept, process_row. intros Hk Hm.
  destruct (facility_type_of r) as [t | e]; [| discriminate]. simpl.
  destruct (isna t); [discriminate |].
  apply raises_bind_l. apply build_facility_raises. assumption.
Qed.

(** C4, as the code has it: a row that is not skipped and holds a value
    that does not parse in a numeric field ends the run with an exception;
    no facility sequence is returned and neither file is written. *)
Theorem malformed_kept_row_aborts (df : dataframe) (r : row) :
  In r df -> kept r = true -> malformed r ->
  raises (process_healthsites df)
  /\ raises (run df)
  /\ forall fs, raises (execute df fs).
Proof.
  intros Hin Hk Hm.
  assert (Hp : raises (process_healthsites df)).
  { apply (process_healthsites_raises df r Hin).
    apply kept_malformed_raises; assumption. }
  assert (Hr : raises (run df)).
  { unfold run. apply raises_bind_l. exact Hp. }
  repeat split; try assumption.
  intros fs. unfold execute. apply raises_bind_l. exact Hr.
Qed.

Lemma malformed_kept_row_aborts_witness :
  raises (process_healthsites [healthcare_only_row; bad_beds_row])
  /\ raises (run [healthcare_only_row; bad_beds_row])
  /\ forall fs, raises (execute [healthcare_only_row; bad_beds_row] fs).
Proof.
  apply (malformed_kept_row_aborts [healthcare_only_row; bad_beds_row]
           bad_beds_row).
  - simpl. right. left. reflexivity.
  - vm_compute. reflexivity.
  - right. right. right. left. exists (CStr "abc").
    repeat split; try reflexivity. exists ValueError. reflexivity.
Defined.

(** Kept rows with a separator character before the digits, or with more
    digits than [int] converts, end the run as well. *)
Example unusual_bed_counts_abort :
  process_healthsites
    [with_cell "beds" (CStr (String (ascii_of_N 28) "5")) example_row]
  = Raise ValueError
  /\ process_healthsites
       [with_cell "staff_nurses" (CStr (String (ascii_of_N 30) "5"))
          example_row]
     = Raise ValueError
  /\ process_healthsites
       [with_cell "Lattitude" (CStr (String (ascii_of_N 28) "5"))
          example_row]
     = Raise ValueError
  /\ process_healthsites
       [with_cell "beds"
          (CStr (string_of_list_ascii (repeat "1"%char 4301))) example_row]
     = Raise ValueError.
Proof. vm_compute. repeat split; reflexivity. Qed.

(** C4 as stated fails: the table whose one row has a bed count that is not
    a number, and no facility type, is processed to the end. *)
Lemma skipped_malformed_row_runs :
  In untyped_bad_beds_row [untyped_bad_beds_row]
  /\ malformed untyped_bad_beds_row
  /\ process_healthsites [untyped_bad_beds_row] = Ok []
  /\ ~ raises (run [untyped_bad_beds_row])
  /\ ~ raises (execute [untyped_bad_beds_row] []).
Proof.
  split; [left; reflexivity |].
  split.
  { right. right. right. left. exists (CStr "abc").
    repeat split; try reflexivity. exists ValueError. reflexivity. }
  split; [vm_compute; reflexivity |].
  split; intros [e He]; vm_compute in He; discriminate He.
Qed.

(** ** Further properties of the transform *)

(** *** What each conditional expression yields *)

Lemma copy_if_present_inv (r : row) (col : string) (v : value) :
  copy_if_present r col = Ok v ->
  exists c,
    row_get r col = Ok c /\ v = if notna c then of_cell c else VNone.
Proof.
  unfold copy_if_present. intros H. bind_inv. exists a.
  split; [assumption |].
  destruct (notna a).
  - bind_inv. congruence.
  - congruence.
Qed.

Lemma int_if_present_inv (r : row) (col : string) (v : value) :
  int_if_present r col = Ok v ->
  exists c,
    row_get r col = Ok c
    /\ ((notna c && ne_empty c = false /\ v = VNone)
        \/ (notna c && ne_empty c = true
            /\ exists z, Py.int c = Ok z /\ v = VInt z)).
Proof.
  unfold int_if_present. intros H. bind_inv. exists a.
  split; [assumption |].
  destruct (notna a); simpl.
  - bind_inv. rewrite Ha in Ha1. injection Ha1 as <-. subst a0.
    destruct (ne_empty a).
    + right. bind_inv. rewrite Ha in Ha0. injection Ha0 as <-.
      split; [reflexivity |]. exists a1. split; congruence.
    + left. split; congruence.
  - left. injection Ha0 as <-. split; congruence.
Qed.

Lemma split_if_present_inv (r : row) (col : string) (v : value) :
  split_if_present r col = Ok v ->
  exists c,
    row_get r col = Ok c
    /\ v = if notna c && ne_empty c
           then VList (map VStr (Py.split ";" (Py.str c)))
           else VList [].
Proof.
  unfold split_if_present. intros H. bind_inv. exists a.
  split; [assumption |].
  destruct (notna a); simpl.
  - bind_inv. rewrite Ha in Ha1. injection Ha1 as <-. subst a0.
    destruct (ne_empty a).
    + bind_inv. rewrite Ha in Ha0. injection Ha0 as <-. congruence.
    + congruence.
  - injection Ha0 as <-. congruence.
Qed.

(** *** Lookups through the filter *)

Lemma dict_get_absent {V} (k : string) (d : list (string * V)) :
  ~ In k (map fst d) -> dict_get k d = None.
Proof.
  induction d as [| [k' v] d IH]; simpl; intros H.
  - reflexivity.
  - destruct (String.eqb k k') eqn:E.
    + apply String.eqb_eq in E. subst k'. exfalso. apply H. left. reflexivity.
    + apply IH. intros Hin. apply H. right. assumption.
Qed.

Lemma drop_falsy_keys (d : pydict) (k : string) :
  In k (map fst (drop_falsy d)) -> In k (map fst d).
Proof.
  unfold drop_falsy. intros H. apply in_map_iff in H.
  destruct H as ([k' v] & <- & Hin). apply filter_In in Hin.
  apply in_map_iff. exists (k', v). split; [reflexivity | apply Hin].
Qed.

(** In a dictionary literal with distinct keys, the filter leaves a key
    exactly when its value is true in a condition. *)
Lemma dict_get_drop_falsy (d : pydict) (k : string) :
  NoDup (map fst d) ->
  dict_get k (drop_falsy d) =
  match dict_get k d with
  | Some v => if truthy v then Some v else None
  | None => None
  end.
Proof.
  induction d as [| [k' v] d IH]; intros Hnd.
  - reflexivity.
  - inversion Hnd as [| ? ? Hnotin Hnd']. subst.
    unfold drop_falsy in *. cbn [filter snd dict_get].
    destruct (String.eqb k k') eqn:E.
    + apply String.eqb_eq in E. subst k'.
      destruct (truthy v); cbn [dict_get].
      * rewrite String.eqb_refl. reflexivity.
      * apply dict_get_absent. intros Hin. apply Hnotin.
        apply (drop_falsy_keys d k Hin).
    + destruct (truthy v); cbn [dict_get].
      * rewrite E. apply IH. assumption.
      * apply IH. assumption.
Qed.

(** *** The whole of a facility *)

Lemma location_shape (r : row) (v : value) :
  location r = Ok v ->
  exists lat lon city addr pc,
    v = VDict [("latitude", lat); ("longitude", lon); ("city", city);
               ("address", addr); ("postcode", pc)]
    /\ float_if_present r "Lattitude" VNone = Ok lat
    /\ float_if_present r "Longitude" VNone = Ok lon
    /\ copy_if_present r "addr_city" = Ok city
    /\ copy_if_present r "addr_street" = Ok addr
    /\ copy_if_present r "addr_postcode" = Ok pc.
Proof.
  unfold location. intros H. bind_inv. subst v.
  do 5 eexists. split; [reflexivity |]. repeat split; assumption.
Qed.

Lemma details_shape (r : row) (v : value) :
  details r = Ok v ->
  exists op ot os oh beds docs nurses sp,
    v = VDict [("operator", op); ("operator_type", ot);
               ("operational_status", os); ("opening_hours", oh);
               ("beds", beds); ("staff_doctors", docs);
               ("staff_nurses", nurses); ("specialities", sp)]
    /\ copy_if_present r "operator" = Ok op
    /\ int_if_present r "beds" = Ok beds
    /\ int_if_present r "staff_doctors" = Ok docs
    /\ int_if_present r "staff_nurses" = Ok nurses
    /\ split_if_present r "speciality" = Ok sp.
Proof.
  unfold details. intros H. bind_inv. subst v.
  do 8 eexists. split; [reflexivity |]. repeat split; assumption.
Qed.

Lemma services_shape (r : row) (v : value) :
  services r = Ok v ->
  exists a b c d,
    v = VDict [("dispensing", a); ("emergency", b); ("wheelchair", c);
               ("insurance", d)].
Proof.
  unfold services. intros H. bind_inv. subst v.
  do 4 eexists. reflexivity.
Qed.

Lemma infrastructure_shape (r : row) (v : value) :
  infrastructure r = Ok v ->
  exists a b, v = VDict [("water_source", a); ("electricity", b)].
Proof.
  unfold infrastructure. intros H. bind_inv. subst v.
  do 2 eexists. reflexivity.
Qed.

Lemma metadata_shape (r : row) (v : value) :
  metadata r = Ok v ->
  exists comp osm upd,
    v = VDict [("completeness", comp); ("osm_id", VStr (Py.str osm));
               ("last_updated", upd)]
    /\ float_if_present r "completeness" (VInt 0) = Ok comp
    /\ row_get r "osm_id" = Ok osm
    /\ copy_if_present r "changeset_timestamp" = Ok upd.
Proof.
  unfold metadata. intros H. bind_inv. subst v.
  do 3 eexists. split; [reflexivity |]. repeat split; assumption.
Qed.

Lemma build_facility_shape (r : row) (t : cell) (d : pydict) :
  build_facility r t = Ok d ->
  exists u c loc det srv inf met,
    d = [("id", VStr (Py.str u)); ("name", name_of c t);
         ("type", VStr (Py.str t)); ("location", loc); ("details", det);
         ("services", srv); ("infrastructure", inf); ("metadata", met)]
    /\ row_get r "uuid" = Ok u /\ row_get r "name" = Ok c
    /\ location r = Ok loc /\ details r = Ok det /\ services r = Ok srv
    /\ infrastructure r = Ok inf /\ metadata r = Ok met.
Proof.
  unfold build_facility, name_of. intros H. bind_inv. subst d.
  exists a, a0, a2, a3, a4, a5, a6.
  split.
  - rewrite Ha0 in Ha1. destruct (notna a0); cbn [bind] in Ha1;
      injection Ha1 as <-; reflexivity.
  - repeat split; assumption.
Qed.

Lemma facility_keys_distinct (v1 v2 v3 v4 v5 v6 v7 v8 : value) :
  NoDup (map fst [("id", v1); ("name", v2); ("type", v3); ("location", v4);
                  ("details", v5); ("services", v6);
                  ("infrastructure", v7); ("metadata", v8)]).
Proof.
  cbn [map fst].
  repeat (constructor;
          [ cbn [In]; intros H;
            repeat (destruct H as [H | H]; [discriminate H |]);
            exact H
          | ]).
  constructor.
Qed.

(** *** Which rows are kept *)

(** X1: a row is passed over exactly when its [amenity] is blank (NaN), or
    is false in a condition while [healthcare] is blank. *)
Theorem skipped_iff (r : row) (a h : cell) :
  row_get r "amenity" = Ok a -> row_get r "healthcare" = Ok h ->
  (process_row r = Ok None <->
   isna a = true \/ (cell_truthy a = false /\ isna h = true)).
Proof.
  intros Ha Hh. unfold process_row, facility_type_of.
  rewrite Ha. cbn [bind].
  destruct (cell_truthy a) eqn:Ta; cbn [bind].
  - destruct (isna a) eqn:Na.
    + split; [intros _; left; reflexivity | reflexivity].
    + split.
      * intros H. destruct (build_facility r a); discriminate H.
      * intros [H | [H _]]; discriminate H.
  - rewrite Hh. cbn [bind].
    assert (Na : isna a = false).
    { destruct a as [s | z | x | b]; try reflexivity.
      destruct x; try reflexivity. discriminate Ta. }
    destruct (isna h) eqn:Nh.
    + split; [intros _; right; split; reflexivity | reflexivity].
    + split.
      * intros H. destruct (build_facility r h); discriminate H.
      * rewrite Na. intros [H | [_ H]]; discriminate H.
Qed.

Lemma skipped_iff_witness :
  process_row healthcare_only_row = Ok None <->
  isna NaN = true \/ (cell_truthy NaN = false /\ isna (CStr "clinic") = true).
Proof.
  apply (skipped_iff healthcare_only_row NaN (CStr "clinic"));
    vm_compute; reflexivity.
Defined.

(** X2: a table without an [amenity] column stops at its first row with
    [KeyError], before anything is produced. *)
Theorem missing_amenity_column (r : row) (df : dataframe) :
  dict_get "amenity" r = None ->
  process_healthsites (r :: df) = Raise (KeyError "amenity")
  /\ run (r :: df) = Raise (KeyError "amenity")
  /\ forall fs, execute (r :: df) fs = Raise (KeyError "amenity").
Proof.
  intros H.
  assert (Hp : process_healthsites (r :: df) = Raise (KeyError "amenity")).
  { rewrite process_healthsites_cons.
    unfold process_row, facility_type_of, row_get. rewrite H. reflexivity. }
  assert (Hr : run (r :: df) = Raise (KeyError "amenity")).
  { unfold run. rewrite Hp. reflexivity. }
  repeat split; try assumption.
  intros fs. unfold execute. rewrite Hr. reflexivity.
Qed.

Lemma missing_amenity_column_witness :
  process_healthsites [[("uuid", CStr "abc")]; example_row]
    = Raise (KeyError "amenity")
  /\ run [[("uuid", CStr "abc")]; example_row] = Raise (KeyError "amenity")
  /\ forall fs,
       execute [[("uuid", CStr "abc")]; example_row] fs
       = Raise (KeyError "amenity").
Proof.
  apply (missing_amenity_column [("uuid", CStr "abc")] [example_row]).
  reflexivity.
Defined.

(** *** The sections of a facility *)

Lemma process_row_shape (r : row) (f : pydict) :
  process_row r = Ok (Some f) ->
  exists t u c loc det srv inf met,
    facility_type_of r = Ok t /\ isna t = false
    /\ row_get r "uuid" = Ok u /\ row_get r "name" = Ok c
    /\ location r = Ok loc /\ details r = Ok det /\ services r = Ok srv
    /\ infrastructure r = Ok inf /\ metadata r = Ok met
    /\ f = drop_falsy
             [("id", VStr (Py.str u)); ("name", name_of c t);
              ("type", VStr (Py.str t)); ("location", loc);
              ("details", det); ("services", srv);
              ("infrastructure", inf); ("metadata", met)].
Proof.
  intros H.
  destruct (process_row_inv _ _ H) as (t & d & Ht & Hna & Hd & ->).
  destruct (build_facility_shape _ _ _ Hd)
    as (u & c & loc & det & srv & inf & met & -> & Hu & Hc & Hrest).
  exists t, u, c, loc, det, srv, inf, met.
  repeat split; try assumption; apply Hrest.
Qed.

(** X3: every facility of the result carries all five sections, each with
    its full list of keys, after whichever of [id], [name] and [type] the
    filter left. *)
Theorem sections_always_present (df : dataframe) (fs : list pydict)
  (f : pydict) :
  process_healthsites df = Ok fs -> In f fs ->
  exists pre loc det srv inf met,
    map fst f =
      pre ++ ["location"; "details"; "services"; "infrastructure";
              "metadata"]
    /\ incl pre ["id"; "name"; "type"]
    /\ dict_get "location" f = Some (VDict loc)
    /\ map fst loc = ["latitude"; "longitude"; "city"; "address"; "postcode"]
    /\ dict_get "details" f = Some (VDict det)
    /\ map fst det =
       ["operator"; "operator_type"; "operational_status"; "opening_hours";
        "beds"; "staff_doctors"; "staff_nurses"; "specialities"]
    /\ dict_get "services" f = Some (VDict srv)
    /\ map fst srv = ["dispensing"; "emergency"; "wheelchair"; "insurance"]
    /\ dict_get "infrastructure" f = Some (VDict inf)
    /\ map fst inf = ["water_source"; "electricity"]
    /\ dict_get "metadata" f = Some (VDict met)
    /\ map fst met = ["completeness"; "osm_id"; "last_updated"].
Proof.
  intros Hrun Hin.
  destruct (produced_from_row _ _ _ Hrun Hin) as (r & _ & Hr).
  destruct (process_row_shape _ _ Hr)
    as (t & u & c & loc & det & srv & inf & met & _ & _ & _ & _
        & Hloc & Hdet & Hsrv & Hinf & Hmet & ->).
  destruct (location_shape _ _ Hloc) as (? & ? & ? & ? & ? & -> & _).
  destruct (details_shape _ _ Hdet)
    as (? & ? & ? & ? & ? & ? & ? & ? & -> & _).
  destruct (services_shape _ _ Hsrv) as (? & ? & ? & ? & ->).
  destruct (infrastructure_shape _ _ Hinf) as (? & ? & ->).
  destruct (metadata_shape _ _ Hmet) as (? & ? & ? & -> & _).
  exists (map fst (drop_falsy [("id", VStr (Py.str u)); ("name", name_of c t);
                               ("type", VStr (Py.str t))])).
  do 5 eexists.
  split; [| split].
  - generalize (VStr (Py.str u)) (name_of c t) (VStr (Py.str t)).
    intros v1 v2 v3. unfold drop_falsy. cbn [filter snd].
    destruct (truthy v1), (truthy v2), (truthy v3); reflexivity.
  - intros k Hk. apply drop_falsy_keys in Hk. exact Hk.
  - repeat rewrite dict_get_drop_falsy by apply facility_keys_distinct.
    cbn. repeat split; reflexivity.
Qed.

Lemma sections_always_present_witness :
  exists pre loc det srv inf met,
    map fst example_facility =
      pre ++ ["location"; "details"; "services"; "infrastructure";
              "metadata"]
    /\ incl pre ["id"; "name"; "type"]
    /\ dict_get "location" example_facility = Some (VDict loc)
    /\ map fst loc = ["latitude"; "longitude"; "city"; "address"; "postcode"]
    /\ dict_get "details" example_facility = Some (VDict det)
    /\ map fst det =
       ["operator"; "operator_type"; "operational_status"; "opening_hours";
        "beds"; "staff_doctors"; "staff_nurses"; "specialities"]
    /\ dict_get "services" example_facility = Some (VDict srv)
    /\ map fst srv = ["dispensing"; "emergency"; "wheelchair"; "insurance"]
    /\ dict_get "infrastructure" example_facility = Some (VDict inf)
    /\ map fst inf = ["water_source"; "electricity"]
    /\ dict_get "metadata" example_facility = Some (VDict met)
    /\ map fst met = ["completeness"; "osm_id"; "last_updated"].
Proof.
  apply (sections_always_present [example_row; clinic_row]
           [example_facility; clinic_facility] example_facility).
  - vm_compute. reflexivity.
  - left. reflexivity.
Defined.

(** *** The entries of a facility, from its row *)

(** X4: [id] is [str(uuid)], [type] is [str] of the facility type and
    [name] is the name cell, or [Unnamed <type>] for a blank one; each is
    left out exactly when it is false in a condition. *)
Theorem top_level_entries (r : row) (f : pydict) :
  process_row r = Ok (Some f) ->
  exists t u c,
    facility_type_of r = Ok t /\ row_get r "uuid" = Ok u
    /\ row_get r "name" = Ok c
    /\ dict_get "id" f =
       (if str_truthy (Py.str u) then Some (VStr (Py.str u)) else None)
    /\ dict_get "type" f =
       (if str_truthy (Py.str t) then Some (VStr (Py.str t)) else None)
    /\ dict_get "name" f =
       (if truthy (name_of c t) then Some (name_of c t) else None).
Proof.
  intros H.
  destruct (process_row_shape _ _ H)
    as (t & u & c & loc & det & srv & inf & met & Ht & _ & Hu & Hc & _
        & _ & _ & _ & _ & ->).
  exists t, u, c. repeat split; try assumption;
    rewrite dict_get_drop_falsy by apply facility_keys_distinct;
    reflexivity.
Qed.

Lemma top_level_entries_witness :
  exists t u c,
    facility_type_of clinic_row = Ok t /\ row_get clinic_row "uuid" = Ok u
    /\ row_get clinic_row "name" = Ok c
    /\ dict_get "id" clinic_facility =
       (if str_truthy (Py.str u) then Some (VStr (Py.str u)) else None)
    /\ dict_get "type" clinic_facility =
       (if str_truthy (Py.str t) then Some (VStr (Py.str t)) else None)
    /\ dict_get "name" clinic_facility =
       (if truthy (name_of c t) then Some (name_of c t) else None).
Proof.
  apply (top_level_entries clinic_row clinic_facility).
  vm_compute. reflexivity.
Defined.

(** X5: a blank [uuid] does not leave the facility without an [id]: the
    id is the string [nan], and so is [metadata.osm_id] for a blank
    [osm_id]. *)
Theorem blank_ids_read_nan (r : row) (f : pydict) :
  process_row r = Ok (Some f) ->
  (row_get r "uuid" = Ok NaN -> dict_get "id" f = Some (VStr "nan"))
  /\ (row_get r "osm_id" = Ok NaN ->
      get_in f "metadata" "osm_id" VNone = Ok (VStr "nan")).
Proof.
  intros H.
  destruct (process_row_shape _ _ H)
    as (t & u & c & loc & det & srv & inf & met & _ & _ & Hu & _ & _
        & _ & _ & _ & Hmet & ->).
  destruct (metadata_shape _ _ Hmet) as (comp & osm & upd & -> & _ & Ho & _).
  split; intros E.
  - rewrite Hu in E. injection E as ->.
    rewrite dict_get_drop_falsy by apply facility_keys_distinct.
    reflexivity.
  - rewrite Ho in E. injection E as ->. unfold get_in.
    rewrite dict_get_drop_falsy by apply facility_keys_distinct.
    reflexivity.
Qed.

Lemma blank_ids_read_nan_witness :
  exists f,
    process_row anonymous_row = Ok (Some f)
    /\ dict_get "id" f = Some (VStr "nan")
    /\ get_in f "metadata" "osm_id" VNone = Ok (VStr "nan").
Proof.
  eexists. split; [vm_compute; reflexivity |].
  split;
    [ apply (proj1 (blank_ids_read_nan anonymous_row _ eq_refl))
    | apply (proj2 (blank_ids_read_nan anonymous_row _ eq_refl)) ];
    reflexivity.
Defined.

(** X6: [metadata.completeness] is always there: the integer 0 for a blank
    cell, the float of the cell otherwise, a zero included. *)
Theorem completeness_always_present (r : row) (f : pydict) :
  process_row r = Ok (Some f) ->
  exists c,
    row_get r "completeness" = Ok c
    /\ ((isna c = true
         /\ get_in f "metadata" "completeness" VNone = Ok (VInt 0))
        \/ (isna c = false
            /\ exists x,
                 Py.float c = Ok x
                 /\ get_in f "metadata" "completeness" VNone
                    = Ok (VFloat x))).
Proof.
  intros H.
  destruct (process_row_shape _ _ H)
    as (t & u & c & loc & det & srv & inf & met & _ & _ & _ & _ & _
        & _ & _ & _ & Hmet & ->).
  destruct (metadata_shape _ _ Hmet) as (comp & osm & upd & -> & Hc & _).
  destruct (float_if_present_inv _ _ _ _ Hc)
    as (k & Hk & [[Hna ->] | (Hna & x & Hx & ->)]);
    exists k; (split; [assumption |]).
  - left. split; [assumption |]. unfold get_in.
    rewrite dict_get_drop_falsy by apply facility_keys_distinct.
    reflexivity.
  - right. split; [assumption |]. exists x. split; [assumption |].
    unfold get_in.
    rewrite dict_get_drop_falsy by apply facility_keys_distinct.
    reflexivity.
Qed.

Lemma completeness_always_present_witness :
  exists c,
    row_get example_row "completeness" = Ok c
    /\ ((isna c = true
         /\ get_in example_facility "metadata" "completeness" VNone
            = Ok (VInt 0))
        \/ (isna c = false
            /\ exists x,
                 Py.float c = Ok x
                 /\ get_in example_facility "metadata" "completeness" VNone
                    = Ok (VFloat x))).
Proof.
  apply (completeness_always_present example_row example_facility).
  vm_compute. reflexivity.
Defined.

(** *** The counters, from the rows *)

Lemma produced_in_order (df : dataframe) (fs : list pydict) :
  process_healthsites df = Ok fs ->
  Forall2 (fun r f => process_row r = Ok (Some f)) (filter kept df) fs.
Proof.
  revert fs. induction df as [| r df IH]; intros fs Hrun.
  - rewrite process_healthsites_nil in Hrun. injection Hrun as <-.
    constructor.
  - rewrite process_healthsites_cons in Hrun. bind_inv. subst fs.
    cbn [filter]. destruct a as [f |].
    + rewrite (process_row_kept _ _ Ha). constructor; auto.
    + rewrite (process_row_skipped _ Ha). auto.
Qed.

Lemma count_if_rows (R : row -> pydict -> Prop)
  (cond : pydict -> result bool) (p : row -> bool) :
  (forall r f b, R r f -> cond f = Ok b -> b = p r) ->
  forall rows fs n,
    Forall2 R rows fs -> count_if cond fs = Ok n ->
    n = Z.of_nat (List.length (filter p rows)).
Proof.
  intros Hp rows fs n HF. revert n.
  induction HF as [| r f rows fs HR HF IH]; intros n Hn.
  - injection Hn as <-. reflexivity.
  - cbn [count_if] in Hn. bind_inv. subst n.
    rewrite (Hp _ _ _ HR Ha), (IH _ Ha0). cbn [filter].
    destruct (p r); cbn [List.length]; lia.
Qed.

Lemma has_operator_of_row (r : row) (f : pydict) :
  process_row r = Ok (Some f) -> has_operator f = Ok (operator_counts r).
Proof.
  intros H.
  destruct (process_row_shape _ _ H)
    as (t & u & c & loc & det & srv & inf & met & _ & _ & _ & _ & _
        & Hdet & _ & _ & _ & ->).
  destruct (details_shape _ _ Hdet)
    as (op & ? & ? & ? & ? & ? & ? & ? & -> & Hop & _).
  destruct (copy_if_present_inv _ _ _ Hop) as (k & Hk & ->).
  unfold has_operator, get_in, operator_counts.
  rewrite dict_get_drop_falsy by apply facility_keys_distinct.
  rewrite Hk. cbn. destruct (notna k); reflexivity.
Qed.

(** X7: [with_operator] is the number of kept rows whose [operator] is
    present and true in a condition. *)
Theorem with_operator_counts_rows (df : dataframe) (o : Outputs) :
  run df = Ok o ->
  with_operator (data_quality (summary_out o)) =
    Z.of_nat (List.length (filter operator_counts (filter kept df))).
Proof.
  intros H. apply run_inv in H. destruct H as (Hp & Hs & _).
  apply summary_inv in Hs. destruct Hs as (_ & _ & _ & _ & _ & Hc).
  apply (count_if_rows (fun r f => process_row r = Ok (Some f))
           has_operator operator_counts) with (fs := facilities_out o).
  - intros r f b Hr Hb. rewrite (has_operator_of_row _ _ Hr) in Hb.
    congruence.
  - apply produced_in_order. assumption.
  - assumption.
Qed.

Lemma with_operator_counts_rows_witness :
  with_operator (data_quality two_rows_summary) =
    Z.of_nat
      (List.length
         (filter operator_counts
            (filter kept [example_row; healthcare_only_row; clinic_row]))).
Proof.
  apply (with_operator_counts_rows
           [example_row; healthcare_only_row; clinic_row] two_rows_outputs).
  vm_compute. reflexivity.
Defined.

Lemma has_name_of_row (r : row) (f : pydict) (b : bool) :
  process_row r = Ok (Some f) -> has_name f = Ok b -> b = name_counts r.
Proof.
  intros H.
  destruct (process_row_shape _ _ H)
    as (t & u & c & loc & det & srv & inf & met & _ & _ & _ & Hc & _
        & _ & _ & _ & _ & ->).
  unfold has_name, name_counts.
  rewrite dict_get_drop_falsy by apply facility_keys_distinct.
  rewrite Hc. cbn [dict_get String.eqb Ascii.eqb Bool.eqb]. unfold name_of.
  destruct c as [s | z | x | k].
  - destruct s; cbn -[Py.startswith]; intros E; injection E as <-;
      reflexivity.
  - destruct z; cbn; intros E; try discriminate E; injection E as <-;
      reflexivity.
  - destruct x; cbn; intros E; try discriminate E; injection E as <-;
      reflexivity.
  - destruct k; cbn; intros E; [discriminate E |].
    injection E as <-. reflexivity.
Qed.

(** X8: [with_name] is the number of kept rows whose [name] is a string,
    not empty, that does not start with [Unnamed]; a blank name, filled in
    as [Unnamed <type>], is never counted. *)
Theorem with_name_counts_rows (df : dataframe) (o : Outputs) :
  run df = Ok o ->
  with_name (data_quality (summary_out o)) =
    Z.of_nat (List.length (filter name_counts (filter kept df))).
Proof.
  intros H. apply run_inv in H. destruct H as (Hp & Hs & _).
  apply summary_inv in Hs. destruct Hs as (_ & _ & _ & _ & Hc & _).
  apply (count_if_rows (fun r f => process_row r = Ok (Some f))
           has_name name_counts) with (fs := facilities_out o).
  - intros r f b Hr Hb. apply (has_name_of_row _ _ _ Hr Hb).
  - apply produced_in_order. assumption.
  - assumption.
Qed.

Lemma with_name_counts_rows_witness :
  with_name (data_quality two_rows_summary) =
    Z.of_nat
      (List.length
         (filter name_counts
            (filter kept [example_row; healthcare_only_row; clinic_row]))).
Proof.
  apply (with_name_counts_rows
           [example_row; healthcare_only_row; clinic_row] two_rows_outputs).
  vm_compute. reflexivity.
Defined.

Lemma kept_row_produces (df : dataframe) (fs : list pydict) (r : row) :
  process_healthsites df = Ok fs -> In r df -> kept r = true ->
  exists f, In f fs /\ process_row r = Ok (Some f).
Proof.
  revert fs. induction df as [| r0 df IH]; intros fs Hrun Hin Hk.
  - destruct Hin.
  - rewrite process_healthsites_cons in Hrun. bind_inv. subst fs.
    destruct Hin as [-> | Hin].
    + destruct a as [f |].
      * exists f. split; [left; reflexivity | assumption].
      * apply process_row_skipped in Ha. congruence.
    + destruct (IH _ Ha0 Hin Hk) as (f & Hf & Hr).
      exists f. split; [| assumption].
      destruct a; [right |]; assumption.
Qed.

Lemma has_name_raises_attribute (f : pydict) (e : exn) :
  has_name f = Raise e -> e = AttributeError.
Proof.
  unfold has_name.
  destruct (dict_get "name" f) as [v |]; [| discriminate].
  destruct (truthy v); [| discriminate].
  destruct v; intros H; try discriminate H; congruence.
Qed.

Lemma has_name_numeric (r : row) (f : pydict) :
  process_row r = Ok (Some f) -> numeric_name r = true ->
  has_name f = Raise AttributeError.
Proof.
  intros H.
  destruct (process_row_shape _ _ H)
    as (t & u & c & loc & det & srv & inf & met & _ & _ & _ & Hc & _
        & _ & _ & _ & _ & ->).
  unfold has_name, numeric_name.
  rewrite dict_get_drop_falsy by apply facility_keys_distinct.
  rewrite Hc. cbn [dict_get String.eqb Ascii.eqb Bool.eqb]. unfold name_of.
  destruct c as [s | z | x | k].
  - discriminate.
  - destruct z; cbn; intros E; try discriminate E; reflexivity.
  - destruct x; cbn; intros E; try discriminate E; reflexivity.
  - destruct k; cbn; intros E; try discriminate E; reflexivity.
Qed.

Lemma count_if_raises (cond : pydict -> result bool) (e0 : exn)
  (fs : list pydict) (f : pydict) :
  (forall g e, cond g = Raise e -> e = e0) ->
  In f fs -> cond f = Raise e0 -> count_if cond fs = Raise e0.
Proof.
  intros Hall. induction fs as [| g fs IH]; intros Hin Hf.
  - destruct Hin.
  - cbn [count_if]. destruct (cond g) as [b | e] eqn:Eg; cbn [bind].
    + destruct Hin as [-> | Hin]; [congruence |].
      rewrite (IH Hin Hf). reflexivity.
    + rewrite (Hall _ _ Eg). reflexivity.
Qed.

(** X9: the transform accepts a name that is a number, the summary does
    not: with a kept row whose [name] is a non-zero number or [True], the
    run ends in [AttributeError] and nothing is written. *)
Theorem numeric_name_fails_summary (df : dataframe) (fs : list pydict)
  (r : row) :
  process_healthsites df = Ok fs ->
  In r df -> kept r = true -> numeric_name r = true ->
  run df = Raise AttributeError
  /\ forall files0, execute df files0 = Raise AttributeError.
Proof.
  intros Hrun Hin Hk Hnum.
  assert (Hr : run df = Raise AttributeError).
  { destruct (kept_row_produces _ _ _ Hrun Hin Hk) as (f & Hf & Hrow).
    unfold run. rewrite Hrun. cbn [bind]. unfold summary.
    rewrite (count_if_filter has_coordinates latitude_nonzero).
    - cbn [bind].
      rewrite (count_if_raises has_name AttributeError fs f).
      + reflexivity.
      + apply has_name_raises_attribute.
      + assumption.
      + apply (has_name_numeric _ _ Hrow Hnum).
    - intros g Hg.
      destruct (produced_from_row _ _ _ Hrun Hg) as (r' & _ & Hr').
      destruct (has_coordinates_of_row _ _ Hr') as (lat & _ & -> & ->).
      reflexivity. }
  split; [assumption |].
  intros files0. unfold execute. rewrite Hr. reflexivity.
Qed.

Lemma numeric_name_fails_summary_witness :
  run [example_row; numbered_row] = Raise AttributeError
  /\ forall files0,
       execute [example_row; numbered_row] files0 = Raise AttributeError.
Proof.
  apply (numeric_name_fails_summary [example_row; numbered_row]
           [example_facility;
            dict_set String.eqb "name" (VFloat twenty_five) clinic_facility]
           numbered_row).
  - vm_compute. reflexivity.
  - right. left. reflexivity.
  - vm_compute. reflexivity.
  - vm_compute. reflexivity.
Defined.

Lemma city_of_row (r : row) (f : pydict) :
  process_row r = Ok (Some f) ->
  exists city,
    get_in f "location" "city" (VStr "Unknown") = Ok city
    /\ truthy city = city_counts r /\ hashable city = true.
Proof.
  intros H.
  destruct (process_row_shape _ _ H)
    as (t & u & c & loc & det & srv & inf & met & _ & _ & _ & _ & Hloc
        & _ & _ & _ & _ & ->).
  destruct (location_shape _ _ Hloc)
    as (lat & lon & city & addr & pc & -> & _ & _ & Hcity & _).
  destruct (copy_if_present_inv _ _ _ Hcity) as (k & Hk & ->).
  exists (if notna k then of_cell k else VNone).
  unfold get_in, city_counts.
  rewrite dict_get_drop_falsy by apply facility_keys_distinct.
  rewrite Hk. cbn [dict_get String.eqb Ascii.eqb Bool.eqb truthy].
  split; [reflexivity |].
  destruct (notna k); [| split; reflexivity].
  split; [reflexivity | destruct k; reflexivity].
Qed.

Lemma count_cities_sum (rows : list row) (fs : list pydict) :
  Forall2 (fun r f => process_row r = Ok (Some f)) rows fs ->
  forall t t',
    count_cities fs t = Ok t' ->
    tally_sum t' =
    tally_sum t + Z.of_nat (List.length (filter city_counts rows)).
Proof.
  induction 1 as [| r f rows fs HR HF IH]; intros t t' Ht.
  - injection Ht as <-. cbn. lia.
  - cbn [count_cities] in Ht.
    destruct (city_of_row _ _ HR) as (city & Hget & Htr & _).
    rewrite Hget in Ht. cbn [bind] in Ht. rewrite Htr in Ht.
    cbn [filter].
    destruct (city_counts r); bind_inv.
    + rewrite (IH _ _ Ht), (incr_sum _ _ _ Ha). cbn [List.length]. lia.
    + subst a. rewrite (IH _ _ Ht). lia.
Qed.

(** X10: the counts of [by_location] add up to the number of kept rows
    whose [addr_city] is present and true in a condition, so to no more
    than [total_facilities]; facilities without a city are in no count. *)
Theorem by_location_total (df : dataframe) (o : Outputs) :
  run df = Ok o ->
  tally_sum (by_location (summary_out o)) =
    Z.of_nat (List.length (filter city_counts (filter kept df)))
  /\ tally_sum (by_location (summary_out o))
     <= total_facilities (summary_out o).
Proof.
  intros H. apply run_inv in H. destruct H as (Hp & Hs & _).
  apply summary_inv in Hs. destruct Hs as (Htot & _ & Hc & _).
  pose proof (produced_in_order _ _ Hp) as HF.
  rewrite (count_cities_sum _ _ HF _ _ Hc). cbn [tally_sum fold_right].
  split; [lia |].
  rewrite Htot, <- (Forall2_length HF).
  pose proof (filter_length_le city_counts (filter kept df)). lia.
Qed.

Lemma by_location_total_witness :
  tally_sum (by_location two_rows_summary) =
    Z.of_nat
      (List.length
         (filter city_counts
            (filter kept [example_row; healthcare_only_row; clinic_row])))
  /\ tally_sum (by_location two_rows_summary)
     <= total_facilities two_rows_summary.
Proof.
  apply (by_location_total
           [example_row; healthcare_only_row; clinic_row] two_rows_outputs).
  vm_compute. reflexivity.
Defined.

(** *** The tally by type *)

Lemma text_tally_find (k : string) (t : list (string * Z)) :
  dict_find key_eqb (VStr k) (text_tally t) = dict_find String.eqb k t.
Proof.
  induction t as [| [k' n] t IH]; cbn.
  - reflexivity.
  - destruct (String.eqb k' k); [reflexivity | exact IH].
Qed.

Lemma text_tally_set (k : string) (n : Z) (t : list (string * Z)) :
  dict_set key_eqb (VStr k) n (text_tally t) =
  text_tally (dict_set String.eqb k n t).
Proof.
  induction t as [| [k' n'] t IH]; cbn.
  - reflexivity.
  - destruct (String.eqb k' k); cbn; [reflexivity |].
    f_equal. exact IH.
Qed.

Lemma incr_text (k : string) (t : list (string * Z)) :
  incr (VStr k) (text_tally t) = Ok (text_tally (bump k t)).
Proof.
  unfold incr, bump. cbn [hashable].
  rewrite text_tally_find, text_tally_set. reflexivity.
Qed.

Lemma ftype_of_row (r : row) (f : pydict) :
  process_row r = Ok (Some f) ->
  match dict_get "type" f with
  | Some v => v
  | None => VStr "unknown"
  end = VStr (type_label r).
Proof.
  intros H.
  destruct (process_row_shape _ _ H)
    as (t & u & c & loc & det & srv & inf & met & Ht & _ & _ & _ & _
        & _ & _ & _ & _ & ->).
  rewrite dict_get_drop_falsy by apply facility_keys_distinct.
  unfold type_label. rewrite Ht.
  cbn [dict_get String.eqb Ascii.eqb Bool.eqb truthy].
  destruct (str_truthy (Py.str t)); reflexivity.
Qed.

Lemma count_types_text (rows : list row) (fs : list pydict) :
  Forall2 (fun r f => process_row r = Ok (Some f)) rows fs ->
  forall t,
    count_types fs (text_tally t) =
    Ok (text_tally
          (fold_left (fun t k => bump k t) (map type_label rows) t)).
Proof.
  induction 1 as [| r f rows fs HR HF IH]; intros t.
  - reflexivity.
  - cbn [count_types map fold_left].
    rewrite (ftype_of_row _ _ HR), incr_text. cbn [bind]. apply IH.
Qed.

Lemma find_bump_same (k : string) (t : list (string * Z)) :
  dict_find String.eqb k (bump k t) =
  Some (match dict_find String.eqb k t with Some n => n | None => 0 end + 1).
Proof.
  unfold bump. induction t as [| [k' n] t IH]; cbn.
  - rewrite String.eqb_refl. reflexivity.
  - destruct (String.eqb k' k) eqn:E; cbn; rewrite E.
    + reflexivity.
    + exact IH.
Qed.

Lemma find_set_other (k k' : string) (n : Z) (t : list (string * Z)) :
  String.eqb k' k = false ->
  dict_find String.eqb k (dict_set String.eqb k' n t) =
  dict_find String.eqb k t.
Proof.
  intros Hne. induction t as [| [k0 n0] t IH]; cbn.
  - rewrite Hne. reflexivity.
  - destruct (String.eqb k0 k') eqn:E; cbn.
    + apply String.eqb_eq in E. subst k0. rewrite Hne. reflexivity.
    + destruct (String.eqb k0 k); [reflexivity | exact IH].
Qed.

Lemma occurrences_cons (k l : string) (labels : list string) :
  occurrences k (l :: labels) =
  (if String.eqb l k then 1 else 0) + occurrences k labels.
Proof.
  unfold occurrences. cbn [filter].
  destruct (String.eqb l k); cbn [List.length]; lia.
Qed.

Lemma occurrences_nonneg (k : string) (labels : list string) :
  0 <= occurrences k labels.
Proof. unfold occurrences. lia. Qed.

Lemma find_after_labels (k : string) (labels : list string) :
  forall t,
    dict_find String.eqb k (fold_left (fun t k => bump k t) labels t) =
    match dict_find String.eqb k t with
    | Some n => Some (n + occurrences k labels)
    | None =>
        if occurrences k labels =? 0 then None
        else Some (occurrences k labels)
    end.
Proof.
  induction labels as [| l labels IH]; intros t.
  - cbn. destruct (dict_find String.eqb k t); [f_equal; lia | reflexivity].
  - cbn [fold_left]. rewrite IH, occurrences_cons.
    pose proof (occurrences_nonneg k labels) as Hpos.
    destruct (String.eqb l k) eqn:E.
    + apply String.eqb_eq in E. subst l. rewrite find_bump_same.
      destruct (dict_find String.eqb k t) as [n |].
      * f_equal. lia.
      * destruct (Z.eqb_spec (1 + occurrences k labels) 0);
          [lia | f_equal; lia].
    + unfold bump. rewrite (find_set_other _ _ _ _ E). reflexivity.
Qed.

(** X11: the count that [facility_types] holds for a type is the number of
    kept rows of that type, where the type of a row is [str] of its
    facility type, or [unknown] when that string is empty; a type that no
    kept row has is not a key. *)
Theorem facility_types_counts (df : dataframe) (o : Outputs) (k : string) :
  run df = Ok o ->
  dict_find key_eqb (VStr k) (facility_types (summary_out o)) =
  if occurrences k (map type_label (filter kept df)) =? 0 then None
  else Some (occurrences k (map type_label (filter kept df))).
Proof.
  intros H. apply run_inv in H. destruct H as (Hp & Hs & _).
  apply summary_inv in Hs. destruct Hs as (_ & Hc & _).
  pose proof (count_types_text _ _ (produced_in_order _ _ Hp) []) as Ht.
  change (text_tally []) with (@nil (value * Z)) in Ht.
  rewrite Hc in Ht. injection Ht as ->.
  rewrite text_tally_find, find_after_labels. reflexivity.
Qed.

Lemma facility_types_counts_witness :
  dict_find key_eqb (VStr "pharmacy") (facility_types mixed_summary) =
  if occurrences "pharmacy" (map type_label (filter kept mixed_rows)) =? 0
  then None
  else Some (occurrences "pharmacy" (map type_label (filter kept mixed_rows))).
Proof.
  apply (facility_types_counts mixed_rows
           (outputs_of [example_facility; clinic_facility; example_facility]
              mixed_summary)).
  unfold run.
  replace (process_healthsites mixed_rows)
    with (Ok [example_facility; clinic_facility; example_facility])
    by (vm_compute; reflexivity).
  cbn [bind].
  replace (summary [example_facility; clinic_facility; example_facility])
    with (Ok mixed_summary) by (vm_compute; reflexivity).
  reflexivity.
Defined.

Lemma keys_set (k : string) (n : Z) (t : list (string * Z)) :
  map fst (dict_set String.eqb k n t) =
  if existsb (fun k' => String.eqb k' k) (map fst t) then map fst t
  else map fst t ++ [k].
Proof.
  induction t as [| [k' n'] t IH]; cbn.
  - reflexivity.
  - destruct (String.eqb k' k); cbn.
    + reflexivity.
    + rewrite IH.
      destruct (existsb (fun k0 => String.eqb k0 k) (map fst t)); reflexivity.
Qed.

Lemma filter_twice {A} (p q : A -> bool) (l : list A) :
  filter p (filter q l) = filter (fun x => q x && p x) l.
Proof.
  induction l as [| x l IH]; cbn.
  - reflexivity.
  - destruct (q x); cbn; [destruct (p x) |]; rewrite IH; reflexivity.
Qed.

Lemma keys_after_labels (labels : list string) :
  forall t,
    map fst (fold_left (fun t k => bump k t) labels t) =
    map fst t
    ++ filter (fun y => negb (existsb (fun k' => String.eqb k' y) (map fst t)))
         (first_seen labels).
Proof.
  induction labels as [| x labels IH]; intros t.
  - cbn. rewrite app_nil_r. reflexivity.
  - cbn [fold_left first_seen filter]. rewrite IH. unfold bump at 1 2.
    rewrite keys_set.
    destruct (existsb (fun k' => String.eqb k' x) (map fst t)) eqn:Ex;
      cbn [negb].
    + f_equal. rewrite filter_twice. apply filter_ext. intros y.
      destruct (String.eqb y x) eqn:E; cbn [negb andb]; [| reflexivity].
      apply String.eqb_eq in E. subst y. rewrite Ex. reflexivity.
    + rewrite <- app_assoc. cbn [app]. do 2 f_equal.
      rewrite filter_twice. apply filter_ext. intros y.
      rewrite existsb_app. cbn [existsb]. rewrite orb_false_r.
      rewrite (String.eqb_sym x y).
      destruct (String.eqb y x), (existsb (fun k' => String.eqb k' y)
                                    (map fst t)); reflexivity.
Qed.

Lemma text_tally_keys (t : list (string * Z)) :
  map fst (text_tally t) = map VStr (map fst t).
Proof.
  unfold text_tally. rewrite !map_map. reflexivity.
Qed.

(** X12: the keys of [facility_types] are the types of the kept rows, each
    once, in the order in which the rows first show them. *)
Theorem facility_types_keys (df : dataframe) (o : Outputs) :
  run df = Ok o ->
  map fst (facility_types (summary_out o)) =
  map VStr (first_seen (map type_label (filter kept df))).
Proof.
  intros H. apply run_inv in H. destruct H as (Hp & Hs & _).
  apply summary_inv in Hs. destruct Hs as (_ & Hc & _).
  pose proof (count_types_text _ _ (produced_in_order _ _ Hp) []) as Ht.
  change (text_tally []) with (@nil (value * Z)) in Ht.
  rewrite Hc in Ht. injection Ht as ->.
  rewrite text_tally_keys, keys_after_labels. cbn [map app existsb negb].
  f_equal. clear. induction (first_seen _) as [| y l IH]; cbn.
  - reflexivity.
  - f_equal. exact IH.
Qed.

Lemma facility_types_keys_witness :
  map fst (facility_types mixed_summary) =
  map VStr (first_seen (map type_label (filter kept mixed_rows))).
Proof.
  apply (facility_types_keys mixed_rows
           (outputs_of [example_facility; clinic_facility; example_facility]
              mixed_summary)).
  unfold run.
  replace (process_healthsites mixed_rows)
    with (Ok [example_facility; clinic_facility; example_facility])
    by (vm_compute; reflexivity).
  cbn [bind].
  replace (summary [example_facility; clinic_facility; example_facility])
    with (Ok mixed_summary) by (vm_compute; reflexivity).
  reflexivity.
Defined.

(** *** Specialities *)

Lemma split_not_empty (a : ascii) (s : string) : Py.split a s <> [].
Proof.
  destruct s as [| b s]; cbn.
  - discriminate.
  - destruct (Ascii.eqb b a); [discriminate |].
    destruct (Py.split a s); discriminate.
Qed.

Lemma join_cons (sep x : string) (rest : list string) :
  rest <> [] -> join sep (x :: rest) = (x ++ sep ++ join sep rest)%string.
Proof. destruct rest; [congruence | reflexivity]. Qed.

Lemma join_split (a : ascii) (s : string) :
  join (String a "") (Py.split a s) = s.
Proof.
  induction s as [| b s IH]; cbn [Py.split].
  - reflexivity.
  - destruct (Ascii.eqb b a) eqn:E.
    + apply Ascii.eqb_eq in E. subst b.
      rewrite join_cons by apply split_not_empty.
      rewrite IH. reflexivity.
    + destruct (Py.split a s) as [| h t] eqn:Es.
      * exfalso. apply (split_not_empty a s Es).
      * destruct t as [| h' t'].
        -- cbn in IH |- *. rewrite IH. reflexivity.
        -- rewrite join_cons by discriminate.
           rewrite join_cons in IH by discriminate.
           cbn [append] in IH |- *. rewrite IH. reflexivity.
Qed.

Lemma split_parts_clean (a : ascii) (s : string) :
  Forall (fun part => has_char a part = false) (Py.split a s).
Proof.
  induction s as [| b s IH]; cbn [Py.split].
  - constructor; [reflexivity | constructor].
  - destruct (Ascii.eqb b a) eqn:E.
    + constructor; [reflexivity | exact IH].
    + destruct (Py.split a s) as [| h t].
      * constructor; [| constructor]. cbn. rewrite E. reflexivity.
      * inversion IH as [| ? ? Hh Ht]. subst.
        constructor; [| assumption]. cbn. rewrite E. exact Hh.
Qed.

(** X13: for a kept row with a speciality, [details.specialities] is a
    non-empty list of strings without a semicolon, and joining them with
    semicolons gives back [str] of the cell: nothing is trimmed, and empty
    parts are kept. *)
Theorem specialities_round_trip (r : row) (f : pydict) (c : cell) :
  process_row r = Ok (Some f) ->
  row_get r "speciality" = Ok c -> notna c = true -> ne_empty c = true ->
  exists parts,
    get_in f "details" "specialities" VNone = Ok (VList (map VStr parts))
    /\ parts <> []
    /\ join ";" parts = Py.str c
    /\ Forall (fun part => has_char ";" part = false) parts.
Proof.
  intros H Hc Hna Hne.
  destruct (process_row_shape _ _ H)
    as (t & u & n & loc & det & srv & inf & met & _ & _ & _ & _ & _
        & Hdet & _ & _ & _ & ->).
  destruct (details_shape _ _ Hdet)
    as (? & ? & ? & ? & ? & ? & ? & sp & -> & _ & _ & _ & _ & Hsp).
  destruct (split_if_present_inv _ _ _ Hsp) as (k & Hk & ->).
  rewrite Hc in Hk. injection Hk as <-. rewrite Hna, Hne. cbn [andb].
  exists (Py.split ";" (Py.str c)).
  split; [| split; [| split]].
  - unfold get_in.
    rewrite dict_get_drop_falsy by apply facility_keys_distinct.
    reflexivity.
  - apply split_not_empty.
  - apply join_split.
  - apply split_parts_clean.
Qed.

Lemma specialities_round_trip_witness :
  exists parts,
    get_in clinic_facility "details" "specialities" VNone
      = Ok (VList (map VStr parts))
    /\ parts <> []
    /\ join ";" parts = Py.str (CStr "hiv;maternity")
    /\ Forall (fun part => has_char ";" part = false) parts.
Proof.
  apply (specialities_round_trip clinic_row clinic_facility
           (CStr "hiv;maternity"));
    vm_compute; reflexivity.
Defined.

(** *** When the run fails *)

Lemma bind_raise {A B} (m : result A) (k : A -> result B) (e : exn) :
  bind m k = Raise e -> m = Raise e \/ exists a, m = Ok a /\ k a = Raise e.
Proof.
  destruct m as [a | e']; cbn; intros H.
  - right. exists a. split; [reflexivity | exact H].
  - left. congruence.
Qed.

Lemma float_error (c : cell) (e : exn) :
  Py.float c = Raise e -> parse_error e.
Proof.
  unfold parse_error, Py.float, Py.float_of_int.
  destruct c as [s | z | x | b].
  - destruct (Py.float_of_string s); intros H; [discriminate H |].
    left. congruence.
  - destruct (binary_normalize prec emax z 0 false); intros H;
      try discriminate H; right; congruence.
  - discriminate.
  - destruct (binary_normalize prec emax (if b then 1 else 0) 0 false);
      intros H; try discriminate H; right; congruence.
Qed.

Lemma int_error (c : cell) (e : exn) :
  Py.int c = Raise e -> parse_error e.
Proof.
  unfold parse_error, Py.int, Py.int_of_float.
  destruct c as [s | z | x | b].
  - destruct (Py.int_of_string s); intros H; [discriminate H |].
    left. congruence.
  - discriminate.
  - destruct x; intros H; try discriminate H; [right | left]; congruence.
  - discriminate.
Qed.

Lemma copy_if_present_returns (r : row) (col : string) (e : exn) :
  (exists c, row_get r col = Ok c) -> copy_if_present r col <> Raise e.
Proof.
  intros [c Hc]. unfold copy_if_present. rewrite Hc. cbn [bind].
  destruct (notna c); discriminate.
Qed.

Lemma split_if_present_returns (r : row) (col : string) (e : exn) :
  (exists c, row_get r col = Ok c) -> split_if_present r col <> Raise e.
Proof.
  intros [c Hc]. unfold split_if_present. rewrite Hc. cbn [bind].
  destruct (notna c); cbn [bind]; [destruct (ne_empty c) |]; discriminate.
Qed.

Lemma float_if_present_fails (r : row) (col : string) (dflt : value)
  (e : exn) :
  (exists c, row_get r col = Ok c) ->
  float_if_present r col dflt = Raise e ->
  bad_float r col /\ parse_error e.
Proof.
  intros [c Hc]. unfold float_if_present, bad_float. rewrite Hc. cbn [bind].
  destruct (notna c) eqn:Hna; [| discriminate].
  destruct (Py.float c) as [x | e'] eqn:Hf; cbn [bind]; intros H;
    [discriminate H |].
  injection H as ->. split.
  - exists c. repeat split; try assumption. exists e. assumption.
  - apply (float_error _ _ Hf).
Qed.

Lemma int_if_present_fails (r : row) (col : string) (e : exn) :
  (exists c, row_get r col = Ok c) ->
  int_if_present r col = Raise e ->
  bad_int r col /\ parse_error e.
Proof.
  intros [c Hc]. unfold int_if_present, bad_int. rewrite Hc. cbn [bind].
  destruct (notna c) eqn:Hna; cbn [bind]; [| discriminate].
  destruct (ne_empty c) eqn:Hne; [| discriminate].
  destruct (Py.int c) as [z | e'] eqn:Hi; cbn [bind]; intros H;
    [discriminate H |].
  injection H as ->. split.
  - exists c. repeat split; try assumption. exists e. assumption.
  - apply (int_error _ _ Hi).
Qed.

(** Shows that a column name is one of [columns]. *)
Ltac in_columns :=
  unfold columns; cbn [In]; repeat (first [left; reflexivity | right]).

(** Splits a hypothesis [H : chain = Raise e] into one goal for each step
    of the chain that may have raised. *)
Ltac raise_cases H :=
  repeat match type of H with
         | bind _ _ = Raise _ =>
             apply bind_raise in H; destruct H as [H | (? & _ & H)]
         end.

(** Closes the goals of [raise_cases] for steps that cannot raise on a
    complete row. *)
Ltac cannot_raise H Hc :=
  exfalso;
  match type of H with
  | Ok _ = Raise _ => discriminate H
  | copy_if_present ?r ?col = Raise ?e =>
      apply (copy_if_present_returns r col e (Hc col ltac:(in_columns)) H)
  | split_if_present ?r ?col = Raise ?e =>
      apply (split_if_present_returns r col e (Hc col ltac:(in_columns)) H)
  | row_get ?r ?col = Raise _ =>
      let Hcol := fresh "Hcol" in
      destruct (Hc col ltac:(in_columns)) as [? Hcol];
      rewrite Hcol in H; discriminate H
  end.

(** The step that raised is a conversion to float or to int. *)
Ltac parse_case H Hc :=
  match type of H with
  | float_if_present ?r ?col ?d = Raise ?e =>
      destruct (float_if_present_fails r col d e (Hc col ltac:(in_columns)) H)
  | int_if_present ?r ?col = Raise ?e =>
      destruct (int_if_present_fails r col e (Hc col ltac:(in_columns)) H)
  end.

Lemma location_fails (r : row) (e : exn) :
  complete r -> location r = Raise e ->
  (bad_float r "Lattitude" \/ bad_float r "Longitude") /\ parse_error e.
Proof.
  intros Hc H. unfold location in H. raise_cases H.
  - parse_case H Hc. split; [left |]; assumption.
  - parse_case H Hc. split; [right |]; assumption.
  - cannot_raise H Hc.
  - cannot_raise H Hc.
  - cannot_raise H Hc.
  - cannot_raise H Hc.
Qed.

Lemma details_fails (r : row) (e : exn) :
  complete r -> details r = Raise e ->
  (bad_int r "beds" \/ bad_int r "staff_doctors" \/ bad_int r "staff_nurses")
  /\ parse_error e.
Proof.
  intros Hc H. unfold details in H. raise_cases H.
  - cannot_raise H Hc.
  - cannot_raise H Hc.
  - cannot_raise H Hc.
  - cannot_raise H Hc.
  - parse_case H Hc. split; [left |]; assumption.
  - parse_case H Hc. split; [right; left |]; assumption.
  - parse_case H Hc. split; [right; right |]; assumption.
  - cannot_raise H Hc.
  - cannot_raise H Hc.
Qed.

Lemma services_returns (r : row) (e : exn) :
  complete r -> services r <> Raise e.
Proof.
  intros Hc H. unfold services in H. raise_cases H; cannot_raise H Hc.
Qed.

Lemma infrastructure_returns (r : row) (e : exn) :
  complete r -> infrastructure r <> Raise e.
Proof.
  intros Hc H. unfold infrastructure in H. raise_cases H; cannot_raise H Hc.
Qed.

Lemma metadata_fails (r : row) (e : exn) :
  complete r -> metadata r = Raise e ->
  bad_float r "completeness" /\ parse_error e.
Proof.
  intros Hc H. unfold metadata in H. raise_cases H.
  - parse_case H Hc. split; assumption.
  - cannot_raise H Hc.
  - cannot_raise H Hc.
  - cannot_raise H Hc.
Qed.

Lemma build_facility_fails (r : row) (t : cell) (e : exn) :
  complete r -> build_facility r t = Raise e ->
  malformed r /\ parse_error e.
Proof.
  intros Hc H. unfold build_facility, malformed in *. raise_cases H.
  - cannot_raise H Hc.
  - cannot_raise H Hc.
  - exfalso. match type of H with (if ?b then _ else _) = _ => destruct b end.
    + raise_cases H; cannot_raise H Hc.
    + discriminate H.
  - destruct (location_fails _ _ Hc H) as [[Hb | Hb] He];
      split; auto.
  - destruct (details_fails _ _ Hc H) as [[Hb | [Hb | Hb]] He];
      split; auto 10.
  - exfalso. apply (services_returns _ _ Hc H).
  - exfalso. apply (infrastructure_returns _ _ Hc H).
  - destruct (metadata_fails _ _ Hc H) as [Hb He]. split; auto.
  - discriminate H.
Qed.

Lemma facility_type_returns (r : row) :
  complete r -> exists t, facility_type_of r = Ok t.
Proof.
  intros Hc. unfold facility_type_of.
  destruct (Hc "amenity" ltac:(in_columns)) as [a Ha].
  destruct (Hc "healthcare" ltac:(in_columns)) as [h Hh].
  rewrite Ha. cbn [bind]. destruct (cell_truthy a); eauto.
Qed.

Lemma process_row_fails (r : row) (e : exn) :
  complete r -> process_row r = Raise e ->
  kept r = true /\ malformed r /\ parse_error e.
Proof.
  intros Hc H. unfold process_row, kept in *.
  destruct (facility_type_returns r Hc) as [t Ht]. rewrite Ht in *.
  cbn [bind] in H. destruct (isna t); [discriminate H |].
  split; [reflexivity |].
  apply (build_facility_fails r t e Hc).
  apply bind_raise in H. destruct H as [H | (? & _ & H)];
    [exact H | discriminate H].
Qed.

Lemma process_healthsites_fails (df : dataframe) (e : exn) :
  (forall r, In r df -> complete r) ->
  process_healthsites df = Raise e ->
  exists r, In r df /\ kept r = true /\ malformed r /\ parse_error e.
Proof.
  induction df as [| r df IH]; intros Hc H.
  - discriminate H.
  - rewrite process_healthsites_cons in H.
    apply bind_raise in H. destruct H as [H | (o & _ & H)].
    + exists r. split; [left; reflexivity |].
      apply process_row_fails; [apply Hc; left; reflexivity | assumption].
    + apply bind_raise in H. destruct H as [H | (? & _ & H)];
        [| discriminate H].
      destruct IH as (r' & Hin & Hrest); [| assumption |].
      * intros r' Hr'. apply Hc. right. assumption.
      * exists r'. split; [right; assumption | assumption].
Qed.

(** X14: on a table with every column, the transform fails exactly when
    some kept row holds a value that does not parse in a numeric field, and
    the exception is then [ValueError] or [OverflowError]. *)
Theorem transform_fails_iff (df : dataframe) :
  (forall r, In r df -> complete r) ->
  (raises (process_healthsites df) <->
   exists r, In r df /\ kept r = true /\ malformed r)
  /\ (forall e, process_healthsites df = Raise e -> parse_error e).
Proof.
  intros Hc. split; [split |].
  - intros [e He].
    destruct (process_healthsites_fails df e Hc He) as (r & Hin & Hk & Hm & _).
    exists r. repeat split; assumption.
  - intros (r & Hin & Hk & Hm).
    apply (process_healthsites_raises df r Hin).
    apply kept_malformed_raises; assumption.
  - intros e He.
    destruct (process_healthsites_fails df e Hc He) as (r & _ & _ & _ & Hp).
    exact Hp.
Qed.

(** Shows that a row given cell by cell is complete. *)
Ltac complete_row :=
  let col := fresh "col" in
  let Hin := fresh "Hin" in
  intros col Hin; unfold columns in Hin; cbn [In] in Hin;
  repeat (destruct Hin as [<- | Hin]; [eexists; vm_compute; reflexivity |]);
  destruct Hin.

Lemma transform_fails_iff_witness :
  (raises (process_healthsites [healthcare_only_row; bad_beds_row]) <->
   exists r,
     In r [healthcare_only_row; bad_beds_row] /\ kept r = true
     /\ malformed r)
  /\ (forall e,
        process_healthsites [healthcare_only_row; bad_beds_row] = Raise e ->
        parse_error e).
Proof.
  apply (transform_fails_iff [healthcare_only_row; bad_beds_row]).
  intros r [<- | [<- | []]]; complete_row.
Defined.

Lemma count_if_fails (cond : pydict -> result bool) (fs : list pydict)
  (e : exn) :
  count_if cond fs = Raise e -> exists f, In f fs /\ cond f = Raise e.
Proof.
  induction fs as [| g fs IH]; intros H.
  - discriminate H.
  - cbn [count_if] in H. raise_cases H.
    + exists g. split; [left; reflexivity | assumption].
    + destruct (IH H) as (f & Hf & He).
      exists f. split; [right; assumption | assumption].
    + discriminate H.
Qed.

Lemma has_name_fails_row (r : row) (f : pydict) (e : exn) :
  process_row r = Ok (Some f) -> has_name f = Raise e ->
  numeric_name r = true.
Proof.
  intros H.
  destruct (process_row_shape _ _ H)
    as (t & u & c & loc & det & srv & inf & met & _ & _ & _ & Hc & _
        & _ & _ & _ & _ & ->).
  unfold has_name, numeric_name.
  rewrite dict_get_drop_falsy by apply facility_keys_distinct.
  rewrite Hc. cbn [dict_get String.eqb Ascii.eqb Bool.eqb]. unfold name_of.
  destruct c as [s | z | x | k].
  - destruct s; cbn -[Py.startswith]; discriminate.
  - destruct z; cbn; intros E; try discriminate E; reflexivity.
  - destruct x; cbn; intros E; try discriminate E; reflexivity.
  - destruct k; cbn; intros E; try discriminate E; reflexivity.
Qed.

Lemma count_cities_returns (rows : list row) (fs : list pydict) :
  Forall2 (fun r f => process_row r = Ok (Some f)) rows fs ->
  forall t, exists t', count_cities fs t = Ok t'.
Proof.
  induction 1 as [| r f rows fs HR HF IH]; intros t.
  - exists t. reflexivity.
  - cbn [count_cities].
    destruct (city_of_row _ _ HR) as (city & Hget & _ & Hhash).
    rewrite Hget. cbn [bind].
    destruct (truthy city); cbn [bind]; [| apply IH].
    unfold incr. rewrite Hhash. cbn [bind]. apply IH.
Qed.

Lemma summary_fails (df : dataframe) (fs : list pydict) (e : exn) :
  process_healthsites df = Ok fs -> summary fs = Raise e ->
  exists r, In r df /\ kept r = true /\ numeric_name r = true.
Proof.
  intros Hp H. unfold summary in H.
  pose proof (produced_in_order _ _ Hp) as HF.
  raise_cases H.
  - exfalso. destruct (count_if_fails _ _ _ H) as (f & Hf & He).
    destruct (produced_from_row _ _ _ Hp Hf) as (r & _ & Hr).
    destruct (has_coordinates_of_row _ _ Hr) as (lat & _ & Hok & _).
    congruence.
  - destruct (count_if_fails _ _ _ H) as (f & Hf & He).
    destruct (produced_from_row _ _ _ Hp Hf) as (r & Hin & Hr).
    exists r. split; [assumption |].
    split; [apply (process_row_kept _ _ Hr) |].
    apply (has_name_fails_row _ _ _ Hr He).
  - exfalso. destruct (count_if_fails _ _ _ H) as (f & Hf & He).
    destruct (produced_from_row _ _ _ Hp Hf) as (r & _ & Hr).
    rewrite (has_operator_of_row _ _ Hr) in He. discriminate He.
  - exfalso. pose proof (count_types_text _ _ HF []) as Ht.
    change (text_tally []) with (@nil (value * Z)) in Ht. congruence.
  - exfalso. destruct (count_cities_returns _ _ HF []) as [t' Ht'].
    congruence.
  - discriminate H.
Qed.

Lemma summary_numeric_name (df : dataframe) (fs : list pydict) (r : row) :
  process_healthsites df = Ok fs ->
  In r df -> kept r = true -> numeric_name r = true ->
  raises (summary fs).
Proof.
  intros Hp Hin Hk Hnum.
  destruct (kept_row_produces _ _ _ Hp Hin Hk) as (f & Hf & Hrow).
  unfold summary. apply raises_bind_r. intros ? _.
  apply raises_bind_l. exists AttributeError.
  apply (count_if_raises has_name AttributeError fs f).
  - apply has_name_raises_attribute.
  - assumption.
  - apply (has_name_numeric _ _ Hrow Hnum).
Qed.

(** Refutes [bad_float] or [bad_int] for a column of a row given cell by
    cell. *)
Ltac not_bad :=
  let c := fresh "c" in
  let Hc := fresh "Hc" in
  let H := fresh "H" in
  intros (c & Hc & H); vm_compute in Hc; injection Hc as <-;
  first
    [ destruct H as [H _]; vm_compute in H; discriminate H
    | destruct H as (_ & [? H]); vm_compute in H; discriminate H
    | destruct H as (_ & _ & [? H]); vm_compute in H; discriminate H ].

Ltac not_malformed :=
  unfold malformed;
  let H := fresh "H" in
  intros H;
  repeat (destruct H as [H | H]; [revert H; not_bad |]);
  revert H; not_bad.

(** X15: on a table with every column, the script fails before it opens
    a file exactly when some kept row holds a value that does not parse in
    a numeric field, or a name that is a non-zero number; otherwise the
    transform and the summary both return. *)
Theorem tabulate_fails_iff (df : dataframe) :
  (forall r, In r df -> complete r) ->
  (raises (tabulate df) <->
   exists r,
     In r df /\ kept r = true /\ (malformed r \/ numeric_name r = true))
  /\ ((forall r,
         In r df -> kept r = true ->
         ~ malformed r /\ numeric_name r = false) ->
      exists fs s, tabulate df = Ok (fs, s)).
Proof.
  intros Hc.
  assert (Hiff : raises (tabulate df) <->
                 exists r,
                   In r df /\ kept r = true
                   /\ (malformed r \/ numeric_name r = true)).
  { split.
    - intros [e He]. unfold tabulate in He.
      apply bind_raise in He. destruct He as [He | (fs & Hp & He)].
      + destruct (process_healthsites_fails df e Hc He)
          as (r & Hin & Hk & Hm & _).
        exists r. auto.
      + apply bind_raise in He. destruct He as [Hs | (? & _ & He)];
          [| discriminate He].
        destruct (summary_fails df fs e Hp Hs) as (r & Hin & Hk & Hn).
        exists r. auto.
    - intros (r & Hin & Hk & [Hm | Hn]).
      + unfold tabulate. apply raises_bind_l.
        apply (process_healthsites_raises df r Hin).
        apply kept_malformed_raises; assumption.
      + unfold tabulate. apply raises_bind_r. intros fs Hp.
        apply raises_bind_l.
        apply (summary_numeric_name df fs r); assumption. }
  split; [exact Hiff |].
  intros Hgood. destruct (tabulate df) as [[fs s] | e] eqn:Hr; [eauto |].
  exfalso. destruct (proj1 Hiff) as (r & Hin & Hk & Hbad).
  { exists e. reflexivity. }
  destruct (Hgood r Hin Hk) as [Hm Hn].
  destruct Hbad as [Hb | Hb]; [contradiction | congruence].
Qed.

Lemma tabulate_fails_iff_witness :
  exists fs s, tabulate mixed_rows = Ok (fs, s).
Proof.
  apply (proj2 (tabulate_fails_iff mixed_rows
                  ltac:(intros r [<- | [<- | [<- | [<- | []]]]];
                        complete_row))).
  intros r [<- | [<- | [<- | [<- | []]]]] _;
    (split; [not_malformed | vm_compute; reflexivity]).
Defined.

(** *** The printed summary *)

Lemma insert_by_count_perm (x : value * Z) (l : tally) :
  Permutation (insert_by_count x l) (x :: l).
Proof.
  induction l as [| y l IH]; cbn.
  - apply Permutation_refl.
  - destruct (snd x <? snd y).
    + apply perm_trans with (y :: x :: l).
      * apply perm_skip. exact IH.
      * apply perm_swap.
    + apply Permutation_refl.
Qed.

Lemma insert_by_count_sorted (x : value * Z) (l : tally) :
  StronglySorted (fun a b => snd b <= snd a) l ->
  StronglySorted (fun a b => snd b <= snd a) (insert_by_count x l).
Proof.
  induction 1 as [| y l Hs IH Hy]; cbn.
  - constructor; constructor.
  - destruct (Z.ltb_spec (snd x) (snd y)).
    + constructor; [exact IH |].
      apply (Permutation_Forall (Permutation_sym (insert_by_count_perm x l))).
      constructor; [lia | exact Hy].
    + constructor; [constructor; assumption |].
      constructor; [lia |].
      apply (Forall_impl _ (P := fun b => snd b <= snd y)); [| exact Hy].
      cbn. intros. lia.
Qed.

Lemma insert_by_count_ties (n : Z) (x : value * Z) (l : tally) :
  StronglySorted (fun a b => snd b <= snd a) l ->
  filter (fun kn => snd kn =? n) (insert_by_count x l) =
  filter (fun kn => snd kn =? n) (x :: l).
Proof.
  induction 1 as [| y l Hs IH Hy]; cbn [insert_by_count].
  - reflexivity.
  - destruct (Z.ltb_spec (snd x) (snd y)); [| reflexivity].
    cbn [filter] in *. rewrite IH.
    destruct (Z.eqb_spec (snd x) n), (Z.eqb_spec (snd y) n);
      try reflexivity.
    lia.
Qed.

Lemma sorted_by_count_sorted (t : tally) :
  StronglySorted (fun a b => snd b <= snd a) (sorted_by_count t).
Proof.
  induction t as [| x t IH]; cbn.
  - constructor.
  - apply insert_by_count_sorted. exact IH.
Qed.

(** X16: under [Facility types:] the summary prints one line for each key
    of [facility_types], the larger counts first, and types with the same
    count in the order the tally has them. *)
Theorem report_types_sorted (s : Summary) :
  report s =
    firstn 6 (report s)
    ++ map (fun kn =>
              ("  " ++ format_key (fst kn) ++ ": "
               ++ Py.str_of_int (snd kn))%string)
         (sorted_by_count (facility_types s))
  /\ Permutation (sorted_by_count (facility_types s)) (facility_types s)
  /\ StronglySorted (fun a b => snd b <= snd a)
       (sorted_by_count (facility_types s))
  /\ forall n,
       filter (fun kn => snd kn =? n) (sorted_by_count (facility_types s)) =
       filter (fun kn => snd kn =? n) (facility_types s).
Proof.
  split; [reflexivity |].
  generalize (facility_types s). intros t.
  split; [| split].
  - induction t as [| x t IH]; cbn.
    + constructor.
    + apply perm_trans with (x :: sorted_by_count t).
      * apply insert_by_count_perm.
      * apply perm_skip. exact IH.
  - apply sorted_by_count_sorted.
  - intros n. induction t as [| x t IH]; cbn [sorted_by_count fold_right].
    + reflexivity.
    + fold (sorted_by_count t).
      rewrite insert_by_count_ties by apply sorted_by_count_sorted.
      cbn [filter]. rewrite IH. reflexivity.
Qed.

(** *** Totals *)

(** X18: [total_facilities] is the number of rows of the table that are
    kept. *)
Theorem total_is_kept_rows (df : dataframe) (o : Outputs) :
  run df = Ok o ->
  total_facilities (summary_out o) =
    Z.of_nat (List.length (filter kept df)).
Proof.
  intros H. apply run_inv in H. destruct H as (Hp & Hs & _).
  apply summary_inv in Hs. destruct Hs as (Htot & _).
  rewrite Htot, (Forall2_length (produced_in_order _ _ Hp)). reflexivity.
Qed.

Lemma total_is_kept_rows_witness :
  total_facilities two_rows_summary =
    Z.of_nat
      (List.length
         (filter kept [example_row; healthcare_only_row; clinic_row])).
Proof.
  apply (total_is_kept_rows
           [example_row; healthcare_only_row; clinic_row] two_rows_outputs).
  vm_compute. reflexivity.
Defined.

(** *** Tables put end to end *)

(** X19: rows are processed one by one, without memory of earlier rows:
    the facilities of two tables put end to end are those of the first
    followed by those of the second, and a failure in the first is the
    failure of the whole. *)
Theorem process_healthsites_app (df1 df2 : dataframe) :
  process_healthsites (df1 ++ df2) =
  (fs1 <- process_healthsites df1 ;;
   fs2 <- process_healthsites df2 ;;
   Ok (fs1 ++ fs2)).
Proof.
  induction df1 as [| r df1 IH].
  - cbn [app]. rewrite process_healthsites_nil. cbn [bind].
    destruct (process_healthsites df2); reflexivity.
  - cbn [app]. rewrite !process_healthsites_cons, IH.
    destruct (process_row r) as [o | e]; cbn [bind]; [| reflexivity].
    destruct (process_healthsites df1) as [fs1 | e]; cbn [bind];
      [| reflexivity].
    destruct (process_healthsites df2) as [fs2 | e]; cbn [bind];
      [| reflexivity].
    destruct o; reflexivity.
Qed.

(** *** Bounds of the counters *)

(** X20: each of the three quality counters lies between 0 and
    [total_facilities]. *)
Theorem quality_counters_bounded (df : dataframe) (o : Outputs) :
  run df = Ok o ->
  let q := data_quality (summary_out o) in
  let total := total_facilities (summary_out o) in
  0 <= with_coordinates q <= total
  /\ 0 <= with_name q <= total
  /\ 0 <= with_operator q <= total.
Proof.
  intros H. cbn zeta.
  pose proof H as H0. apply run_inv in H0. destruct H0 as (Hp & Hs & _).
  apply summary_inv in Hs.
  destruct Hs as (Htot & _ & _ & Hco & Hna & Hop).
  pose proof (produced_in_order _ _ Hp) as HF.
  pose proof (Forall2_length HF) as Hlen.
  rewrite Htot, <- Hlen.
  assert (Hc : with_coordinates (data_quality (summary_out o)) =
               Z.of_nat (List.length
                           (filter latitude_nonzero (facilities_out o)))).
  { rewrite (count_if_filter has_coordinates latitude_nonzero) in Hco.
    - injection Hco as <-. reflexivity.
    - intros f Hf.
      destruct (produced_from_row _ _ _ Hp Hf) as (r & _ & Hr).
      destruct (has_coordinates_of_row _ _ Hr) as (lat & _ & -> & ->).
      reflexivity. }
  assert (Hn : with_name (data_quality (summary_out o)) =
               Z.of_nat (List.length (filter name_counts (filter kept df)))).
  { apply (count_if_rows (fun r f => process_row r = Ok (Some f))
             has_name name_counts) with (fs := facilities_out o).
    - intros r f b Hr Hb. apply (has_name_of_row _ _ _ Hr Hb).
    - assumption.
    - assumption. }
  assert (Ho : with_operator (data_quality (summary_out o)) =
               Z.of_nat (List.length
                           (filter operator_counts (filter kept df)))).
  { apply (count_if_rows (fun r f => process_row r = Ok (Some f))
             has_operator operator_counts) with (fs := facilities_out o).
    - intros r f b Hr Hb. rewrite (has_operator_of_row _ _ Hr) in Hb.
      congruence.
    - assumption.
    - assumption. }
  rewrite Hc, Hn, Ho.
  pose proof (filter_length_le latitude_nonzero (facilities_out o)).
  pose proof (filter_length_le name_counts (filter kept df)).
  pose proof (filter_length_le operator_counts (filter kept df)).
  lia.
Qed.

Lemma quality_counters_bounded_witness :
  let q := data_quality two_rows_summary in
  let total := total_facilities two_rows_summary in
  0 <= with_coordinates q <= total
  /\ 0 <= with_name q <= total
  /\ 0 <= with_operator q <= total.
Proof.
  apply (quality_counters_bounded
           [example_row; healthcare_only_row; clinic_row] two_rows_outputs).
  vm_compute. reflexivity.
Defined.
